(** * The Cortex question relay of [app.py]

    A shallow embedding of the relay [call_cortex_agent] and of the modal
    handler [handle_modal_submission] that normalises and delivers its result.

    Python values are a small inductive type with Python's truthiness; dicts
    are finite maps with string keys.  Effects (logging, the HTTP POST, the
    Slack Web API calls) are recorded in a trace that is threaded through a
    state-and-exception monad; the outside world (the HTTP transport and the
    Slack client) answers through functions of the history so far.

    The view builders, the listeners that open or publish a view, the
    greeting and the Snowflake context helper follow, with a trace of their
    own. *)

From Stdlib Require Import ZArith Ascii String List Bool Lia.
From Stdlib Require Import Floats.SpecFloat.
From stdpp Require Import gmap strings fin_maps.
Import ListNotations.

Local Open Scope string_scope.
Local Open Scope Z_scope.

Set Warnings "-register-all".

(** ** Python values *)

(** What [json] decoding produces, which is also all the handler ever sees:
    [None], booleans, integers, floats, strings, lists and string-keyed
    dicts. *)
Inductive value : Type :=
| VNone
| VBool (b : bool)
| VInt (n : Z)
| VFloat (x : spec_float)
| VStr (s : string)
| VList (l : list value)
| VDict (d : gmap string value).

(** Python's [bool(v)]: [None], [False], zero, and empty strings, lists and
    dicts are falsy; everything else (a NaN included) is truthy. *)
Definition truthy (v : value) : bool :=
  match v with
  | VNone => false
  | VBool b => b
  | VInt n => negb (n =? 0)
  | VFloat x => match x with S754_zero _ => false | _ => true end
  | VStr s => negb (String.eqb s "")
  | VList l => match l with [] => false | _ :: _ => true end
  | VDict d => negb (bool_decide (d = ∅))
  end.

(** [isinstance(v, list)]. *)
Definition isinstance_list (v : value) : bool :=
  match v with VList _ => true | _ => false end.

(** ** HTTP responses and exceptions *)

(** A [requests.Response], as far as the relay looks at it: the status code
    and what [resp.json()] makes of the body ([None] when the body is not
    valid JSON). *)
Record Response : Type := mkResponse {
  status_code : Z;
  json_body : option value
}.

(** The exception classes that can travel through the two functions.  All
    of them derive from [Exception]. *)
Inductive exn : Type :=
| ValueError (msg : string)
| HTTPError (response : Response)
| JSONDecodeError
| ConnectionError (detail : string)
| Timeout (detail : string)
| AttributeError (obj : value) (attr : string)
| KeyError (key : string)
| TypeError (obj : value)
| SlackApiError (detail : string).

(** Pure expressions may raise: [exn + A]. *)
Definition res (A : Type) : Type := (exn + A)%type.

(** [obj.get(key)] and [obj.get(key, default)]: only dicts have the method. *)
Definition py_get (obj : value) (key : string) (dflt : value) : res value :=
  match obj with
  | VDict d => inr (default dflt (d !! key))
  | _ => inl (AttributeError obj "get")
  end.

(** [obj[key]] with a string key: a missing key is a [KeyError], and no other
    JSON value can be subscripted by a string. *)
Definition py_getitem (obj : value) (key : string) : res value :=
  match obj with
  | VDict d => match d !! key with
               | Some v => inr v
               | None => inl (KeyError key)
               end
  | _ => inl (TypeError obj)
  end.

(** A keyword parameter declared with the default [None]: the value bound
    to it when the caller passes it ([Some v]) or leaves it out ([None]). *)
Definition kwarg (passed : option value) : value := default VNone passed.

(** [a or b], where both sides may raise and [b] is only evaluated when [a]
    is falsy. *)
Definition py_or (a b : res value) : res value :=
  match a with
  | inl e => inl e
  | inr v => if truthy v then inr v else b
  end.

(** ** Configuration, requests and the trace *)

(** The module-level globals read from the environment at import time
    ([os.environ.get] gives [None] for an unset variable). *)
Record Config : Type := mkConfig {
  CORTEX_AGENT_URL : option string;
  CORTEX_API_KEY : option string;
  CORTEX_TIMEOUT_SECONDS : Z
}.

(** Truthiness of an [Optional[str]], and its rendering inside an f-string. *)
Definition env_truthy (o : option string) : bool :=
  match o with
  | None => false
  | Some s => negb (String.eqb s "")
  end.

Definition env_format (o : option string) : string :=
  match o with
  | None => "None"
  | Some s => s
  end.

(** The arguments of [requests.post(url, headers=, json=, timeout=)]. *)
Record Request : Type := mkRequest {
  req_url : option string;
  req_headers : gmap string string;
  req_json : value;
  req_timeout : Z
}.

(** The keyword arguments of [client.chat_postMessage]; [msg_blocks] is
    [None] when the [blocks=] keyword is not passed. *)
Record Message : Type := mkMessage {
  msg_channel : value;
  msg_blocks : option value;
  msg_text : value
}.

Inductive event : Type :=
| LogInfo (fmt : string) (arg : option string)
| LogException (fmt : string) (e : exn)
| Ack (response_action : string)
| HttpPost (req : Request)
| ConversationsOpen (users : value)
| ChatPostMessage (msg : Message).

Abbreviation trace := (list event).

(** ** The monad: a trace as state, exceptions as results *)

Definition M (A : Type) : Type := trace -> trace * res A.

Definition ret {A} (a : A) : M A := fun tr => (tr, inr a).

Definition raise {A} (e : exn) : M A := fun tr => (tr, inl e).

Definition bind {A B} (m : M A) (k : A -> M B) : M B :=
  fun tr =>
    match m tr with
    | (tr', inl e) => (tr', inl e)
    | (tr', inr a) => k a tr'
    end.

Definition lift {A} (r : res A) : M A := fun tr => (tr, r).

Definition emit (e : event) : M unit := fun tr => ((tr ++ [e])%list, inr tt).

(** [try: m  except Exception as e: h e]. *)
Definition try_except {A} (m : M A) (h : exn -> M A) : M A :=
  fun tr =>
    match m tr with
    | (tr', inl e) => h e tr'
    | (tr', inr a) => (tr', inr a)
    end.

Declare Scope py_scope.
Delimit Scope py_scope with py.
Notation "x <- m ;; k" := (bind m (fun x => k))
  (at level 100, m at next level, right associativity) : py_scope.
Notation "m ;;; k" := (bind m (fun _ => k))
  (at level 100, right associativity) : py_scope.
Local Open Scope py_scope.

(** The number of HTTP POSTs recorded in a trace. *)
Fixpoint count_posts (tr : trace) : nat :=
  match tr with
  | [] => 0%nat
  | HttpPost _ :: tr' => S (count_posts tr')
  | _ :: tr' => count_posts tr'
  end.

(** The JSON bodies of the POSTs recorded in a trace, oldest first. *)
Fixpoint posted_payloads (tr : trace) : list value :=
  match tr with
  | [] => []
  | HttpPost r :: tr' => req_json r :: posted_payloads tr'
  | _ :: tr' => posted_payloads tr'
  end.

(** The messages sent with [chat_postMessage] in a trace, oldest first. *)
Fixpoint posted_messages (tr : trace) : list Message :=
  match tr with
  | [] => []
  | ChatPostMessage m :: tr' => m :: posted_messages tr'
  | _ :: tr' => posted_messages tr'
  end.

(** ** The relay *)

(** [Response.raise_for_status()] of the requests library: an [HTTPError]
    carrying the response for a status in 400..599, nothing otherwise. *)
Definition raise_for_status (resp : Response) : res unit :=
  if (400 <=? status_code resp) && (status_code resp <? 600)
  then inl (HTTPError resp)
  else inr tt.

(** [Response.json()]. *)
Definition response_json (resp : Response) : res value :=
  match json_body resp with
  | Some v => inr v
  | None => inl JSONDecodeError
  end.

(** The [headers] dict of [call_cortex_agent]. *)
Definition cortex_headers (api_key : option string) : gmap string string :=
  {[ "Authorization" := "Bearer " ++ env_format api_key;
     "Content-Type" := "application/json";
     "Accept" := "application/json" ]}.

(** The [payload] dict of [call_cortex_agent], after the conditional
    [payload["context"] = context]. *)
Definition cortex_payload (question context user_id channel_id : value)
  : gmap string value :=
  let payload : gmap string value :=
    {[ "question" := question;
       "source" := VStr "slack";
       "metadata" := VDict {[ "slack_user_id" := user_id;
                              "slack_channel_id" := channel_id ]} ]} in
  if truthy context then <["context" := context]> payload else payload.

Definition config_error_message : string :=
  "CORTEX_AGENT_URL and CORTEX_API_KEY must be set in environment variables".

Section Relay.

Variable cfg : Config.

(** The transport: what [requests.post] does with a request, given the
    history so far — a response, or an exception of the requests
    library. *)
Variable http_post : trace -> Request -> res Response.

Definition requests_post (req : Request) : M Response :=
  fun tr => ((tr ++ [HttpPost req])%list, http_post tr req).

Definition call_cortex_agent (question : value)
  (context user_id channel_id : option value) : M value :=
  let context := kwarg context in
  let user_id := kwarg user_id in
  let channel_id := kwarg channel_id in
  if negb (env_truthy (CORTEX_AGENT_URL cfg))
     || negb (env_truthy (CORTEX_API_KEY cfg))
  then raise (ValueError config_error_message)
  else
    let headers := cortex_headers (CORTEX_API_KEY cfg) in
    let payload := cortex_payload question context user_id channel_id in
    emit (LogInfo "Calling Cortex Agent: %s" (CORTEX_AGENT_URL cfg));;;
    resp <- requests_post
              (mkRequest (CORTEX_AGENT_URL cfg) headers (VDict payload)
                         (CORTEX_TIMEOUT_SECONDS cfg));;
    lift (raise_for_status resp);;;
    lift (response_json resp).

End Relay.

(** ** The modal submission handler *)

Definition placeholder : string := "No answer returned.".

(** [result.get("answer") or result.get("message") or "No answer returned."] *)
Definition display_text (result : value) : res value :=
  py_or (py_or (py_get result "answer" VNone) (py_get result "message" VNone))
        (inr (VStr placeholder)).

(** [answer if not rich else rich] *)
Definition text_out (answer rich : value) : value :=
  if negb (truthy rich) then answer else rich.

Section Handler.

Variable cfg : Config.
Variable http_post : trace -> Request -> res Response.

(** The Slack Web API client.  A call either raises or returns the data
    dict of a validated [SlackResponse]; subscripting such a response is
    [data.get(key, None)]. *)
Variable slack_conversations_open :
  trace -> value -> res (gmap string value).
Variable slack_chat_postMessage : trace -> Message -> res unit.

(** The built-ins [str.strip()] and [str(e)]. *)
Variable str_strip : string -> string.
Variable str_exn : exn -> string.

Definition py_strip (v : value) : res value :=
  match v with
  | VStr s => inr (VStr (str_strip s))
  | _ => inl (AttributeError v "strip")
  end.

Definition conversations_open (users : value) : M (gmap string value) :=
  fun tr => ((tr ++ [ConversationsOpen users])%list,
             slack_conversations_open tr users).

Definition chat_postMessage (msg : Message) : M unit :=
  fun tr => ((tr ++ [ChatPostMessage msg])%list,
             slack_chat_postMessage tr msg).

(** [dm = client.conversations_open(users=user_id)] followed by
    [dm_channel = dm["channel"]["id"]]. *)
Definition open_dm (user_id : value) : M value :=
  dm <- conversations_open user_id;;
  lift (py_getitem (default VNone (dm !! "channel")) "id").

(** The [try:] suite of [handle_modal_submission]. *)
Definition modal_try_suite (question context user_id : value) : M unit :=
  result <- call_cortex_agent cfg http_post question
                              (Some context) (Some user_id) None;;
  answer <- lift (display_text result);;
  rich <- lift (py_get result "rich_text" VNone);;
  blocks <- lift (py_get result "blocks" VNone);;
  dm_channel <- open_dm user_id;;
  if truthy blocks && isinstance_list blocks
  then chat_postMessage (mkMessage dm_channel (Some blocks) answer)
  else chat_postMessage (mkMessage dm_channel None (text_out answer rich)).

(** The [except Exception as e:] suite of [handle_modal_submission]. *)
Definition modal_except_suite (user_id : value) (e : exn) : M unit :=
  emit (LogException "Cortex call failed: %s" e);;;
  try_except
    (dm_channel <- open_dm user_id;;
     chat_postMessage
       (mkMessage dm_channel None
          (VStr ("Sorry, I couldn't complete that request: " ++ str_exn e))))
    (fun _ => ret tt).

Definition handle_modal_submission (body : value) : M unit :=
  view <- lift (py_getitem body "view");;
  state <- lift (py_getitem view "state");;
  state_values <- lift (py_getitem state "values");;
  query_block <- lift (py_getitem state_values "query_block");;
  query_input <- lift (py_getitem query_block "query_input");;
  query_value <- lift (py_getitem query_input "value");;
  question <- lift (py_strip query_value);;
  context_block <- lift (py_get state_values "context_block" (VDict ∅));;
  context_input <- lift (py_get context_block "context_input" (VDict ∅));;
  context <- lift (py_get context_input "value" VNone);;
  emit (Ack "clear");;;
  user <- lift (py_get body "user" (VDict ∅));;
  user_id <- lift (py_get user "id" VNone);;
  try_except (modal_try_suite question context user_id)
             (modal_except_suite user_id).

End Handler.

(** ** A concrete world for running the code *)

Module Example.

(** Python's ASCII whitespace: tab to carriage return, the four separator
    controls, and the space. *)
Definition is_space (c : ascii) : bool :=
  let n := nat_of_ascii c in
  ((9 <=? n) && (n <=? 13) || (28 <=? n) && (n <=? 32))%nat.

Fixpoint lstrip (s : string) : string :=
  match s with
  | String c s' => if is_space c then lstrip s' else s
  | EmptyString => EmptyString
  end.

Fixpoint rstrip (s : string) : string :=
  match s with
  | String c s' =>
      let r := rstrip s' in
      if is_space c && String.eqb r "" then EmptyString else String c r
  | EmptyString => EmptyString
  end.

Definition strip (s : string) : string := rstrip (lstrip s).

(** A rendering of exceptions that is enough to run the handler. *)
Definition str_exn (e : exn) : string :=
  match e with
  | ValueError msg => msg
  | HTTPError _ => "HTTPError"
  | JSONDecodeError => "JSONDecodeError"
  | ConnectionError d => d
  | Timeout d => d
  | AttributeError _ attr => "object has no attribute " ++ attr
  | KeyError k => k
  | TypeError _ => "TypeError"
  | SlackApiError d => d
  end.

Definition cfg : Config :=
  mkConfig (Some "https://cortex.example/api/v1/agent/invoke")
           (Some "secret") 60.

Definition cfg_no_key : Config :=
  mkConfig (Some "https://cortex.example/api/v1/agent/invoke") None 60.

(** A transport that answers every request with [resp]. *)
Definition respond (resp : Response) : trace -> Request -> res Response :=
  fun _ _ => inr resp.

(** An HTTP 500 with an HTML error page, an HTTP 200 whose body is not
    JSON, and an HTTP 300 whose body is a JSON object. *)
Definition resp_500 : Response := mkResponse 500 None.
Definition resp_200_not_json : Response := mkResponse 200 None.
Definition resp_300 : Response :=
  mkResponse 300 (Some (VDict {[ "answer" := VStr "X" ]})).

(** HTTP 200 responses with JSON objects: an answer with rich text and
    blocks; an empty answer next to a message; an answer next to an empty
    rich text; an answer next to a rich text. *)
Definition resp_blocks : Response :=
  mkResponse 200 (Some (VDict {[
    "answer" := VStr "A";
    "rich_text" := VStr "*A*";
    "blocks" := VList [VDict {[ "type" := VStr "divider" ]}] ]})).
Definition resp_empty_answer : Response :=
  mkResponse 200 (Some (VDict {[
    "answer" := VStr ""; "message" := VStr "M" ]})).
Definition resp_empty_rich : Response :=
  mkResponse 200 (Some (VDict {[
    "answer" := VStr "A"; "rich_text" := VStr "" ]})).
Definition resp_rich : Response :=
  mkResponse 200 (Some (VDict {[
    "answer" := VStr "A"; "rich_text" := VStr "*A*" ]})).

(** A transport that must not be reached. *)
Definition unreachable : trace -> Request -> res Response :=
  fun _ _ => inl (ConnectionError "unreachable").

(** A Slack client whose DM channel is D1 and whose posts succeed. *)
Definition slack_open : trace -> value -> res (gmap string value) :=
  fun _ _ => inr {[ "channel" := VDict {[ "id" := VStr "D1" ]} ]}.

Definition slack_post : trace -> Message -> res unit :=
  fun _ _ => inr tt.

(** The body Slack sends for a submitted modal. *)
Definition modal_body (question context user : value) : value :=
  VDict {[
    "user" := VDict {[ "id" := user ]};
    "view" := VDict {[ "state" := VDict {[ "values" := VDict {[
      "query_block" :=
        VDict {[ "query_input" := VDict {[ "value" := question ]} ]};
      "context_block" :=
        VDict {[ "context_input" := VDict {[ "value" := context ]} ]}
    ]} ]} ]}
  ]}.

End Example.

(** ** Names for what one relay call sends *)

(** Both required settings are set and non-empty. *)
Definition configured (cfg : Config) : bool :=
  env_truthy (CORTEX_AGENT_URL cfg) && env_truthy (CORTEX_API_KEY cfg).

(** The log record written before the POST. *)
Definition calling_log (cfg : Config) : event :=
  LogInfo "Calling Cortex Agent: %s" (CORTEX_AGENT_URL cfg).

(** The request handed to [requests.post]. *)
Definition cortex_request (cfg : Config)
  (question context user_id channel_id : value) : Request :=
  mkRequest (CORTEX_AGENT_URL cfg)
            (cortex_headers (CORTEX_API_KEY cfg))
            (VDict (cortex_payload question context user_id channel_id))
            (CORTEX_TIMEOUT_SECONDS cfg).

(** A value is absent from a dict, or present and falsy. *)
Definition absent_or_falsy (d : gmap string value) (key : string) : Prop :=
  forall v, d !! key = Some v -> truthy v = false.

(** ** The specification's wording, for comparison with the code *)

Module Spec.

(** The outbound payload as the specification writes it. *)
Definition payload (question context caller_id channel_id : value)
  : gmap string value :=
  let p : gmap string value :=
    {[ "question" := question;
       "source" := VStr "bot";
       "metadata" := VDict {[ "userId" := caller_id;
                              "channelId" := channel_id ]} ]} in
  if truthy context then <["context" := context]> p else p.

(** [response.answer ?? response.message ?? "No answer returned."], on the
    presence of the fields. *)
Definition displayText (response : gmap string value) : value :=
  match response !! "answer" with
  | Some a => a
  | None => match response !! "message" with
            | Some m => m
            | None => VStr placeholder
            end
  end.

(** The text rendered without blocks: [richText] if the field is present,
    else [displayText]. *)
Definition renderedText (response : gmap string value) (displayText : value)
  : value :=
  match response !! "rich_text" with
  | Some r => r
  | None => displayText
  end.

(** A status code in 200..299. *)
Definition is_2xx (status : Z) : bool := (200 <=? status) && (status <? 300).

End Spec.

(** ** The views the app builds *)

(** [build_cortex_modal(initial_query="")]: the parameter is [None] when
    the caller leaves it out. *)
Definition build_cortex_modal (initial_query : option value) : value :=
  let initial_query := default (VStr "") initial_query in
  VDict {[
    "type" := VStr "modal";
    "callback_id" := VStr "cortex_modal_submit";
    "title" := VDict {[ "type" := VStr "plain_text";
                        "text" := VStr "Cortex Agent" ]};
    "submit" := VDict {[ "type" := VStr "plain_text"; "text" := VStr "Ask" ]};
    "close" := VDict {[ "type" := VStr "plain_text";
                        "text" := VStr "Cancel" ]};
    "blocks" := VList [
      VDict {[
        "type" := VStr "input";
        "block_id" := VStr "query_block";
        "label" := VDict {[ "type" := VStr "plain_text";
                            "text" := VStr "Question" ]};
        "element" := VDict {[
          "type" := VStr "plain_text_input";
          "action_id" := VStr "query_input";
          "placeholder" := VDict {[
            "type" := VStr "plain_text";
            "text" := VStr "Ask your data assistant..." ]};
          "initial_value" := initial_query;
          "multiline" := VBool true ]} ]};
      VDict {[
        "type" := VStr "input";
        "optional" := VBool true;
        "block_id" := VStr "context_block";
        "label" := VDict {[ "type" := VStr "plain_text";
                            "text" := VStr "Context (optional)" ]};
        "element" := VDict {[
          "type" := VStr "plain_text_input";
          "action_id" := VStr "context_input";
          "placeholder" := VDict {[
            "type" := VStr "plain_text";
            "text" := VStr "Extra details, filters, or instructions" ]};
          "multiline" := VBool true ]} ]} ] ]}.

(** [build_home_view()]. *)
Definition build_home_view : value :=
  VDict {[
    "type" := VStr "home";
    "blocks" := VList [
      VDict {[
        "type" := VStr "section";
        "text" := VDict {[
          "type" := VStr "mrkdwn";
          "text" := VStr "Welcome to Cortex Agent for Slack. Use /cortex anywhere, or open the modal below to ask a question." ]} ]};
      VDict {[ "type" := VStr "divider" ]};
      VDict {[
        "type" := VStr "actions";
        "elements" := VList [
          VDict {[
            "type" := VStr "button";
            "text" := VDict {[ "type" := VStr "plain_text";
                               "text" := VStr "Open Cortex" ]};
            "action_id" := VStr "open_cortex_modal_from_home";
            "style" := VStr "primary" ]} ] ]};
      VDict {[
        "type" := VStr "context";
        "elements" := VList [
          VDict {[
            "type" := VStr "mrkdwn";
            "text" := VStr "Tip: Select any message and choose ‘Ask Cortex about this’ to analyze it." ]} ] ]} ] ]}.

(** ** The other listeners *)

(** What the listeners besides the modal submission do to the outside
    world: acknowledge the request, open or publish a view, say something
    in the channel, or log a caught exception. *)
Inductive ui_event : Type :=
| UiAck
| ViewsOpen (trigger_id view : value)
| ViewsPublish (user view : value)
| Say (blocks text : value)
| UiLogException (fmt : string) (e : exn).

Abbreviation ui_trace := (list ui_event).

(** The same monad over this second kind of trace. *)
Definition U (A : Type) : Type := ui_trace -> ui_trace * res A.

Definition ui_bind {A B} (m : U A) (k : A -> U B) : U B :=
  fun tr =>
    match m tr with
    | (tr', inl e) => (tr', inl e)
    | (tr', inr a) => k a tr'
    end.

Definition ui_lift {A} (r : res A) : U A := fun tr => (tr, r).

Definition ui_emit (e : ui_event) : U unit :=
  fun tr => ((tr ++ [e])%list, inr tt).

Definition ui_try_except {A} (m : U A) (h : exn -> U A) : U A :=
  fun tr =>
    match m tr with
    | (tr', inl e) => h e tr'
    | (tr', inr a) => (tr', inr a)
    end.

Declare Scope ui_scope.
Delimit Scope ui_scope with ui.
Notation "x <- m ;; k" := (ui_bind m (fun x => k))
  (at level 100, m at next level, right associativity) : ui_scope.
Notation "m ;;; k" := (ui_bind m (fun _ => k))
  (at level 100, right associativity) : ui_scope.

(** The value of an f-string field [{v}]: a string is inserted as it is,
    [None] and the booleans by name; [str_other] stands for the built-in
    [str] on numbers and containers. *)
Definition py_format (str_other : value -> string) (v : value) : string :=
  match v with
  | VStr s => s
  | VNone => "None"
  | VBool true => "True"
  | VBool false => "False"
  | _ => str_other v
  end.

(** The blocks [message_hello] says to [user]. *)
Definition hello_blocks (user : string) : value :=
  VList [
    VDict {[
      "type" := VStr "section";
      "text" := VDict {[
        "type" := VStr "mrkdwn";
        "text" := VStr ("Hey there <@" ++ user ++ ">! Ask me with /cortex") ]};
      "accessory" := VDict {[
        "type" := VStr "button";
        "text" := VDict {[ "type" := VStr "plain_text";
                           "text" := VStr "Open Cortex" ]};
        "action_id" := VStr "open_cortex_modal_from_message";
        "style" := VStr "primary" ]} ]} ].

Section Listeners.

Local Open Scope ui_scope.

(** The Slack client and the [say] utility; what they return is not used. *)
Variable slack_views_open : ui_trace -> value -> value -> res unit.
Variable slack_views_publish : ui_trace -> value -> value -> res unit.
Variable slack_say : ui_trace -> value -> value -> res unit.

(** The built-ins [str.strip()] and [str()]. *)
Variable str_strip : string -> string.
Variable str_other : value -> string.

Definition views_open (trigger_id view : value) : U unit :=
  fun tr => ((tr ++ [ViewsOpen trigger_id view])%list,
             slack_views_open tr trigger_id view).

Definition views_publish (user view : value) : U unit :=
  fun tr => ((tr ++ [ViewsPublish user view])%list,
             slack_views_publish tr user view).

Definition say (blocks text : value) : U unit :=
  fun tr => ((tr ++ [Say blocks text])%list, slack_say tr blocks text).

(** [logger.exception(fmt, e)] in an [except Exception as e:] suite. *)
Definition log_exception (fmt : string) (e : exn) : U unit :=
  ui_emit (UiLogException fmt e).

Definition update_home_tab (event : value) : U unit :=
  ui_try_except
    (user <- ui_lift (py_getitem event "user");;
     views_publish user build_home_view)
    (log_exception "Failed to publish home: %s").

Definition handle_cortex_command (body : value) : U unit :=
  ui_emit UiAck;;;
  trigger_id <- ui_lift (py_get body "trigger_id" VNone);;
  text <- ui_lift (py_or (py_get body "text" VNone) (inr (VStr "")));;
  text <- ui_lift (py_strip str_strip text);;
  let modal := build_cortex_modal (Some text) in
  ui_try_except
    (views_open trigger_id modal)
    (log_exception "Failed to open Cortex modal: %s").

Definition handle_message_shortcut (body : value) : U unit :=
  ui_emit UiAck;;;
  message <- ui_lift (py_get body "message" (VDict ∅));;
  message_text <- ui_lift (py_get message "text" (VStr ""));;
  trigger_id <- ui_lift (py_get body "trigger_id" VNone);;
  let modal := build_cortex_modal (Some message_text) in
  ui_try_except
    (views_open trigger_id modal)
    (log_exception "Failed to open modal from shortcut: %s").

Definition message_hello (message : value) : U unit :=
  user_in_blocks <- ui_lift (py_getitem message "user");;
  user_in_text <- ui_lift (py_getitem message "user");;
  say (hello_blocks (py_format str_other user_in_blocks))
      (VStr ("Hey there <@" ++ py_format str_other user_in_text ++ ">!")).

Definition open_cortex_modal_from_message (body : value) : U unit :=
  ui_emit UiAck;;;
  trigger_id <- ui_lift (py_get body "trigger_id" VNone);;
  ui_try_except
    (views_open trigger_id (build_cortex_modal None))
    (log_exception "Failed to open Cortex modal from message action: %s").

Definition open_cortex_modal_from_home (body : value) : U unit :=
  ui_emit UiAck;;;
  trigger_id <- ui_lift (py_get body "trigger_id" VNone);;
  ui_try_except
    (views_open trigger_id (build_cortex_modal None))
    (log_exception "Failed to open Cortex modal from home action: %s").

End Listeners.

(** ** The optional Snowflake context *)

(** [str.lower()] on ASCII letters, which is all the keys below contain. *)
Definition ascii_lower (c : ascii) : ascii :=
  let n := nat_of_ascii c in
  if ((65 <=? n) && (n <=? 90))%nat then ascii_of_nat (n + 32) else c.

Fixpoint str_lower (s : string) : string :=
  match s with
  | EmptyString => EmptyString
  | String c s' => String (ascii_lower c) (str_lower s')
  end.

Definition snowflake_keys : list string :=
  [ "SNOWFLAKE_ACCOUNT"; "SNOWFLAKE_USER"; "SNOWFLAKE_WAREHOUSE";
    "SNOWFLAKE_DATABASE"; "SNOWFLAKE_SCHEMA" ].

(** The body of the loop of [build_snowflake_context]: one key read from
    [os.environ] and, if its value is truthy, stored under the lowered key. *)
Definition snowflake_step (environ : gmap string string)
  (context : gmap string value) (key : string) : gmap string value :=
  match environ !! key with
  | Some val =>
      if negb (String.eqb val "")
      then <[str_lower key := VStr val]> context
      else context
  | None => context
  end.

(** [build_snowflake_context()], as a function of [os.environ]: the loop
    over the keys is a left fold on the context built so far. *)
Definition build_snowflake_context (environ : gmap string string)
  : gmap string value :=
  fold_left (snowflake_step environ) snowflake_keys ∅.

(** ** The listeners the app registers *)

(** One constructor per decorator of the Bolt [App]. *)
Inductive listener : Type :=
| OnEvent (name : string)
| OnCommand (name : string)
| OnView (callback_id : string)
| OnShortcut (callback_id : string)
| OnMessage (keyword : string)
| OnAction (action_id : string).

Definition listeners : list listener :=
  [ OnEvent "app_home_opened";
    OnCommand "/cortex";
    OnView "cortex_modal_submit";
    OnShortcut "cortex_message_shortcut";
    OnMessage "hello";
    OnAction "open_cortex_modal_from_message";
    OnAction "open_cortex_modal_from_home" ].

(** ** Observers of views *)

(** The [action_id] of an interactive element. *)
Definition element_action_id (element : value) : option string :=
  match element with
  | VDict e => match e !! "action_id" with
               | Some (VStr a) => Some a
               | _ => None
               end
  | _ => None
  end.

(** The action ids a block can fire: that of its accessory and those of
    its elements. *)
Definition block_action_ids (block : value) : list string :=
  match block with
  | VDict b =>
      (match b !! "accessory" with
       | Some acc => option_list (element_action_id acc)
       | None => []
       end
       ++ match b !! "elements" with
          | Some (VList els) => omap element_action_id els
          | _ => []
          end)%list
  | _ => []
  end.

Definition blocks_action_ids (blocks : value) : list string :=
  match blocks with
  | VList bs => concat (map block_action_ids bs)
  | _ => []
  end.

(** The blocks and the callback id of a view. *)
Definition view_blocks (view : value) : value :=
  match view with
  | VDict v => default (VList []) (v !! "blocks")
  | _ => VList []
  end.

Definition view_callback_id (view : value) : option string :=
  match view with
  | VDict v => match v !! "callback_id" with
               | Some (VStr c) => Some c
               | _ => None
               end
  | _ => None
  end.





(** ** Reading a submission *)

(** The handler's reads of the request body succeed: the question field is
    the string [q], and the context and the user id are [context] and
    [user_id] (each [None] where the body has nothing). *)
Definition submission_reads (body : value)
  (q : string) (context user_id : value) : Prop :=
  exists view state state_values query_block query_input
         context_block context_input user,
    py_getitem body "view" = inr view
    /\ py_getitem view "state" = inr state
    /\ py_getitem state "values" = inr state_values
    /\ py_getitem state_values "query_block" = inr query_block
    /\ py_getitem query_block "query_input" = inr query_input
    /\ py_getitem query_input "value" = inr (VStr q)
    /\ py_get state_values "context_block" (VDict ∅) = inr context_block
    /\ py_get context_block "context_input" (VDict ∅) = inr context_input
    /\ py_get context_input "value" VNone = inr context
    /\ py_get body "user" (VDict ∅) = inr user
    /\ py_get user "id" VNone = inr user_id.

(** The events of delivering or reporting a result: Slack calls and the
    log record of a caught exception. *)
Definition is_delivery (e : event) : bool :=
  match e with
  | ConversationsOpen _ | ChatPostMessage _ | LogException _ _ => true
  | _ => false
  end.

(** ** More scenarios for running the code *)

Module Scenario.

(** Settings that are set but empty. *)
Definition cfg_empty_key : Config :=
  mkConfig (Some "https://cortex.example/api/v1/agent/invoke") (Some "") 60.

(** A transport whose requests time out. *)
Definition timing_out : trace -> Request -> res Response :=
  fun _ _ => inl (Timeout "Read timed out.").

(** An HTTP 200 whose JSON body is a list, not an object. *)
Definition resp_list : Response := mkResponse 200 (Some (VList [VStr "A"])).

(** A Slack client that cannot open the DM channel. *)
Definition slack_open_fails : trace -> value -> res (gmap string value) :=
  fun _ _ => inl (SlackApiError "user_not_found").

(** Slack clients for the other listeners: one that succeeds, one whose
    trigger id has expired. *)
Definition views_ok : ui_trace -> value -> value -> res unit :=
  fun _ _ _ => inr tt.
Definition views_expired : ui_trace -> value -> value -> res unit :=
  fun _ _ _ => inl (SlackApiError "expired_trigger_id").
Definition say_ok : ui_trace -> value -> value -> res unit :=
  fun _ _ _ => inr tt.

(** A stand-in for [str] on numbers and containers. *)
Definition str_other (v : value) : string := "<object>".

(** The body of a [/cortex] command and of a message shortcut. *)
Definition command_body (text : value) : value :=
  VDict {[ "command" := VStr "/cortex";
           "text" := text;
           "trigger_id" := VStr "T1" ]}.
Definition shortcut_body (text : value) : value :=
  VDict {[ "type" := VStr "message_action";
           "message" := VDict {[ "text" := text ]};
           "trigger_id" := VStr "T1" ]}.

(** An environment with Snowflake settings, one of them empty. *)
Definition environ : gmap string string :=
  {[ "SNOWFLAKE_ACCOUNT" := "acme";
     "SNOWFLAKE_USER" := "bob";
     "SNOWFLAKE_PASSWORD" := "hunter2";
     "SNOWFLAKE_WAREHOUSE" := "";
     "PATH" := "/usr/bin" ]}.

End Scenario.

(** ** Facts about traces *)

Lemma count_posts_app (tr1 tr2 : trace) :
  count_posts (tr1 ++ tr2) = (count_posts tr1 + count_posts tr2)%nat.
Proof.
  induction tr1 as [|e tr1 IH]; simpl; [reflexivity|].
  destruct e; simpl; rewrite IH; reflexivity.
Qed.

Lemma posted_payloads_app (tr1 tr2 : trace) :
  posted_payloads (tr1 ++ tr2) = (posted_payloads tr1 ++ posted_payloads tr2)%list.
Proof.
  induction tr1 as [|e tr1 IH]; simpl; [reflexivity|].
  destruct e; simpl; rewrite IH; reflexivity.
Qed.

Lemma posted_messages_app (tr1 tr2 : trace) :
  posted_messages (tr1 ++ tr2) = (posted_messages tr1 ++ posted_messages tr2)%list.
Proof.
  induction tr1 as [|e tr1 IH]; simpl; [reflexivity|].
  destruct e; simpl; rewrite IH; reflexivity.
Qed.

(** ** The relay, step by step *)

Section RelayFacts.

Variable cfg : Config.
Variable http_post : trace -> Request -> res Response.
Variable question : value.
Variables context user_id channel_id : option value.
Variable tr : trace.

Abbreviation request :=
  (cortex_request cfg question
                  (kwarg context) (kwarg user_id) (kwarg channel_id)).

(** The guard: a missing or empty setting raises before anything else
    happens. *)
Lemma call_cortex_agent_guard :
  configured cfg = false ->
  call_cortex_agent cfg http_post question context user_id channel_id tr
  = (tr, inl (ValueError config_error_message)).
Proof.
  unfold configured, call_cortex_agent. intros H.
  apply andb_false_iff in H.
  destruct H as [-> | ->]; simpl; rewrite ?orb_true_r; reflexivity.
Qed.

(** Past the guard: one log record, one POST, and then the outcome of the
    transport, of [raise_for_status] and of [json], in that order. *)
Lemma call_cortex_agent_run :
  configured cfg = true ->
  call_cortex_agent cfg http_post question context user_id channel_id tr
  = ((tr ++ [calling_log cfg; HttpPost request])%list,
     match http_post (tr ++ [calling_log cfg])%list request with
     | inl e => inl e
     | inr resp =>
         match raise_for_status resp with
         | inl e => inl e
         | inr _ => response_json resp
         end
     end).
Proof.
  unfold configured, call_cortex_agent. intros H.
  apply andb_true_iff in H. destruct H as [-> ->]. simpl.
  unfold bind, emit, requests_post, lift, calling_log, cortex_request.
  rewrite <- app_assoc. simpl.
  destruct (http_post _ _) as [e|resp]; [reflexivity|].
  destruct (raise_for_status resp) as [e|[]]; reflexivity.
Qed.

End RelayFacts.

Lemma configured_unset (cfg : Config) :
  CORTEX_AGENT_URL cfg = None \/ CORTEX_API_KEY cfg = None ->
  configured cfg = false.
Proof.
  unfold configured. intros [-> | ->]; simpl; [reflexivity|].
  apply andb_false_r.
Qed.

Lemma raise_for_status_error (resp : Response) :
  400 <= status_code resp < 600 ->
  raise_for_status resp = inl (HTTPError resp).
Proof.
  intros [Hlo Hhi]. unfold raise_for_status.
  apply Z.leb_le in Hlo. apply Z.ltb_lt in Hhi.
  rewrite Hlo, Hhi. reflexivity.
Qed.

Lemma raise_for_status_2xx (resp : Response) :
  200 <= status_code resp < 300 ->
  raise_for_status resp = inr tt.
Proof.
  intros [Hlo Hhi]. unfold raise_for_status.
  destruct (400 <=? status_code resp) eqn:E; [|reflexivity].
  apply Z.leb_le in E. lia.
Qed.

(** ** The outbound payload *)

(** C1, as the specification states it, fails: with both settings present and
    the question "Q" from user U1 in channel C1, the one payload that is
    posted has [source] equal to "slack", and is not the payload of the
    specification (source "bot", metadata keys userId and channelId). *)
Lemma payload_differs_from_spec :
  exists p,
    posted_payloads
      (call_cortex_agent Example.cfg Example.unreachable (VStr "Q")
         None (Some (VStr "U1")) (Some (VStr "C1")) []).1
    = [VDict p]
    /\ p !! "source" = Some (VStr "slack")
    /\ p <> Spec.payload (VStr "Q") VNone (VStr "U1") (VStr "C1").
Proof.
  eexists. split; [reflexivity|]. split; [reflexivity|].
  intros H. apply (f_equal (fun m : gmap string value => m !! "source")) in H.
  vm_compute in H. discriminate H.
Qed.

(** C1, amended: whenever both settings are present, a call posts exactly
    one more payload, which is the dict with [question], [source] equal to
    "slack", and [metadata] holding [slack_user_id] and [slack_channel_id],
    plus [context] when the context is truthy. *)
Theorem outbound_payload_exact
  (cfg : Config) (http_post : trace -> Request -> res Response)
  (question : value) (context user_id channel_id : option value) (tr : trace) :
  configured cfg = true ->
  let base : gmap string value :=
    {[ "question" := question;
       "source" := VStr "slack";
       "metadata" := VDict {[ "slack_user_id" := kwarg user_id;
                              "slack_channel_id" := kwarg channel_id ]} ]} in
  posted_payloads
    (call_cortex_agent cfg http_post question context user_id channel_id tr).1
  = (posted_payloads tr
     ++ [VDict (if truthy (kwarg context)
                then <["context" := kwarg context]> base
                else base)])%list.
Proof.
  intros Hcfg base.
  rewrite call_cortex_agent_run by exact Hcfg.
  cbn [fst]. rewrite posted_payloads_app. reflexivity.
Qed.

Lemma outbound_payload_exact_witness :
  configured Example.cfg = true
  /\ posted_payloads
       (call_cortex_agent Example.cfg Example.unreachable (VStr "Q")
          (Some (VStr "C")) (Some (VStr "U1")) None []).1
     = [VDict {[ "question" := VStr "Q";
                 "source" := VStr "slack";
                 "metadata" := VDict {[ "slack_user_id" := VStr "U1";
                                        "slack_channel_id" := VNone ]};
                 "context" := VStr "C" ]}].
Proof.
  split; [reflexivity|].
  apply (outbound_payload_exact Example.cfg Example.unreachable (VStr "Q")
           (Some (VStr "C")) (Some (VStr "U1")) None []).
  reflexivity.
Defined.

(** C6: with both settings present, a call whose context is absent (left out
    or passed as [None]) posts a payload with no [context] key at all, and a
    call whose context is a non-empty string posts a payload whose [context]
    field is that string. *)
Theorem context_key_absent_or_equal
  (cfg : Config) (http_post : trace -> Request -> res Response)
  (question : value) (user_id channel_id : option value) (tr : trace) :
  configured cfg = true ->
  (forall context, context = None \/ context = Some VNone ->
     exists p,
       posted_payloads
         (call_cortex_agent cfg http_post question
            context user_id channel_id tr).1
       = (posted_payloads tr ++ [VDict p])%list
       /\ p !! "context" = None)
  /\ (forall s, s <> "" ->
        exists p,
          posted_payloads
            (call_cortex_agent cfg http_post question
               (Some (VStr s)) user_id channel_id tr).1
          = (posted_payloads tr ++ [VDict p])%list
          /\ p !! "context" = Some (VStr s)).
Proof.
  intros Hcfg. split.
  - intros context Habsent. eexists. split.
    + rewrite call_cortex_agent_run by exact Hcfg.
      cbn [fst]. rewrite posted_payloads_app. reflexivity.
    + destruct Habsent as [-> | ->]; reflexivity.
  - intros s Hs. eexists. split.
    + rewrite call_cortex_agent_run by exact Hcfg.
      cbn [fst]. rewrite posted_payloads_app. reflexivity.
    + apply String.eqb_neq in Hs.
      change (kwarg (Some (VStr s))) with (VStr s).
      unfold cortex_payload, truthy.
      rewrite Hs. cbn [negb]. apply lookup_insert_eq.
Qed.

Lemma context_key_absent_or_equal_witness :
  configured Example.cfg = true
  /\ (exists p,
        posted_payloads
          (call_cortex_agent Example.cfg Example.unreachable (VStr "Q")
             None (Some (VStr "U1")) None []).1
        = [VDict p]
        /\ p !! "context" = None)
  /\ (exists p,
        posted_payloads
          (call_cortex_agent Example.cfg Example.unreachable (VStr "Q")
             (Some (VStr "C")) (Some (VStr "U1")) None []).1
        = [VDict p]
        /\ p !! "context" = Some (VStr "C")).
Proof.
  split; [reflexivity|].
  destruct (context_key_absent_or_equal Example.cfg Example.unreachable
              (VStr "Q") (Some (VStr "U1")) None [] eq_refl) as [Habs Hpres].
  split.
  - apply (Habs None). left. reflexivity.
  - apply (Hpres "C"). discriminate.
Defined.

(** C10: with both settings present, a call whose context is the empty
    string behaves exactly as a call without context, and the payload it
    posts has no [context] key. *)
Theorem empty_context_omitted
  (cfg : Config) (http_post : trace -> Request -> res Response)
  (question : value) (user_id channel_id : option value) (tr : trace) :
  configured cfg = true ->
  call_cortex_agent cfg http_post question
    (Some (VStr "")) user_id channel_id tr
  = call_cortex_agent cfg http_post question None user_id channel_id tr
  /\ exists p,
       posted_payloads
         (call_cortex_agent cfg http_post question
            (Some (VStr "")) user_id channel_id tr).1
       = (posted_payloads tr ++ [VDict p])%list
       /\ p !! "context" = None.
Proof.
  intros Hcfg. split.
  - rewrite !call_cortex_agent_run by exact Hcfg. reflexivity.
  - eexists. split.
    + rewrite call_cortex_agent_run by exact Hcfg.
      cbn [fst]. rewrite posted_payloads_app. reflexivity.
    + reflexivity.
Qed.

Lemma empty_context_omitted_witness :
  configured Example.cfg = true
  /\ exists p,
       posted_payloads
         (call_cortex_agent Example.cfg Example.unreachable (VStr "Q")
            (Some (VStr "")) (Some (VStr "U1")) None []).1
       = [VDict p]
       /\ p !! "context" = None.
Proof.
  split; [reflexivity|].
  apply (empty_context_omitted Example.cfg Example.unreachable
           (VStr "Q") (Some (VStr "U1")) None [] eq_refl).
Defined.

(** C9: with both settings present, the [metadata] object of the posted
    payload always has both identity keys; each holds the caller's argument,
    and [None] when the caller leaves the argument out. *)
Theorem metadata_keys_always_present
  (cfg : Config) (http_post : trace -> Request -> res Response)
  (question : value) (context user_id channel_id : option value) (tr : trace) :
  configured cfg = true ->
  exists p md,
    posted_payloads
      (call_cortex_agent cfg http_post question
         context user_id channel_id tr).1
    = (posted_payloads tr ++ [VDict p])%list
    /\ p !! "metadata" = Some (VDict md)
    /\ md !! "slack_user_id"
       = Some (match user_id with Some u => u | None => VNone end)
    /\ md !! "slack_channel_id"
       = Some (match channel_id with Some c => c | None => VNone end).
Proof.
  intros Hcfg. eexists. eexists. split.
  - rewrite call_cortex_agent_run by exact Hcfg.
    cbn [fst]. rewrite posted_payloads_app. reflexivity.
  - unfold cortex_payload.
    destruct (truthy (kwarg context)); (split; [reflexivity|]);
      split; destruct user_id, channel_id; reflexivity.
Qed.

Lemma metadata_keys_always_present_witness :
  configured Example.cfg = true
  /\ exists p md,
       posted_payloads
         (call_cortex_agent Example.cfg Example.unreachable (VStr "Q")
            None None None []).1
       = [VDict p]
       /\ p !! "metadata" = Some (VDict md)
       /\ md !! "slack_user_id" = Some VNone
       /\ md !! "slack_channel_id" = Some VNone.
Proof.
  split; [reflexivity|].
  apply (metadata_keys_always_present Example.cfg Example.unreachable
           (VStr "Q") None None None [] eq_refl).
Defined.

(** ** Failures of the relay *)

(** C3: when the endpoint URL or the API key is unset, the call raises the
    configuration error at once: the trace is left as it was, so no POST is
    issued, whatever the transport would have answered. *)
Theorem unset_setting_raises_without_network
  (cfg : Config) (http_post : trace -> Request -> res Response)
  (question : value) (context user_id channel_id : option value) (tr : trace) :
  CORTEX_AGENT_URL cfg = None \/ CORTEX_API_KEY cfg = None ->
  call_cortex_agent cfg http_post question context user_id channel_id tr
  = (tr, inl (ValueError config_error_message))
  /\ count_posts
       (call_cortex_agent cfg http_post question
          context user_id channel_id tr).1
     = count_posts tr.
Proof.
  intros Hunset. apply configured_unset in Hunset.
  rewrite call_cortex_agent_guard by exact Hunset.
  split; reflexivity.
Qed.

Lemma unset_setting_raises_without_network_witness :
  (CORTEX_AGENT_URL Example.cfg_no_key = None
   \/ CORTEX_API_KEY Example.cfg_no_key = None)
  /\ call_cortex_agent Example.cfg_no_key (Example.respond Example.resp_300)
       (VStr "Q") None (Some (VStr "U1")) None []
     = ([], inl (ValueError config_error_message))
  /\ count_posts
       (call_cortex_agent Example.cfg_no_key (Example.respond Example.resp_300)
          (VStr "Q") None (Some (VStr "U1")) None []).1
     = 0%nat.
Proof.
  split; [right; reflexivity|].
  apply (unset_setting_raises_without_network Example.cfg_no_key
           (Example.respond Example.resp_300)
           (VStr "Q") None (Some (VStr "U1")) None []).
  right. reflexivity.
Defined.

(** C5, as the specification states it, fails: an HTTP 300 response is not a
    2xx response, yet the call does not fail; it returns the JSON body. *)
Lemma status_300_returns_normally :
  Spec.is_2xx (status_code Example.resp_300) = false
  /\ (call_cortex_agent Example.cfg (Example.respond Example.resp_300)
        (VStr "Q") None (Some (VStr "U1")) None []).2
     = inr (VDict {[ "answer" := VStr "X" ]}).
Proof. split; reflexivity. Qed.

(** C5, amended: with both settings present, when the transport answers the
    POST with a response whose status is in 400..599, the call raises the
    HTTP error that carries this response (and so its status code), and
    exactly one POST has been issued: there is no retry. *)
Theorem http_error_status_raises_once
  (cfg : Config) (http_post : trace -> Request -> res Response)
  (question : value) (context user_id channel_id : option value) (tr : trace)
  (resp : Response) :
  configured cfg = true ->
  http_post (tr ++ [calling_log cfg])%list
    (cortex_request cfg question
       (kwarg context) (kwarg user_id) (kwarg channel_id))
  = inr resp ->
  400 <= status_code resp < 600 ->
  (call_cortex_agent cfg http_post question
     context user_id channel_id tr).2
  = inl (HTTPError resp)
  /\ count_posts
       (call_cortex_agent cfg http_post question
          context user_id channel_id tr).1
     = S (count_posts tr).
Proof.
  intros Hcfg Hresp Hstatus.
  rewrite call_cortex_agent_run by exact Hcfg.
  rewrite Hresp, raise_for_status_error by exact Hstatus.
  cbn [fst snd]. split; [reflexivity|].
  rewrite count_posts_app. simpl. lia.
Qed.

Lemma http_error_status_raises_once_witness :
  configured Example.cfg = true
  /\ 400 <= status_code Example.resp_500 < 600
  /\ (call_cortex_agent Example.cfg (Example.respond Example.resp_500)
        (VStr "Q") None (Some (VStr "U1")) None []).2
     = inl (HTTPError Example.resp_500)
  /\ count_posts
       (call_cortex_agent Example.cfg (Example.respond Example.resp_500)
          (VStr "Q") None (Some (VStr "U1")) None []).1
     = 1%nat.
Proof.
  split; [reflexivity|]. split; [simpl; lia|].
  apply (http_error_status_raises_once Example.cfg
           (Example.respond Example.resp_500)
           (VStr "Q") None (Some (VStr "U1")) None [] Example.resp_500).
  - reflexivity.
  - reflexivity.
  - simpl. lia.
Defined.

(** C7: with both settings present, when the transport answers the POST with
    a 2xx response whose body is not valid JSON, the call raises the JSON
    decoding error instead of returning a result. *)
Theorem invalid_json_body_raises
  (cfg : Config) (http_post : trace -> Request -> res Response)
  (question : value) (context user_id channel_id : option value) (tr : trace)
  (resp : Response) :
  configured cfg = true ->
  http_post (tr ++ [calling_log cfg])%list
    (cortex_request cfg question
       (kwarg context) (kwarg user_id) (kwarg channel_id))
  = inr resp ->
  200 <= status_code resp < 300 ->
  json_body resp = None ->
  (call_cortex_agent cfg http_post question
     context user_id channel_id tr).2
  = inl JSONDecodeError.
Proof.
  intros Hcfg Hresp Hstatus Hjson.
  rewrite call_cortex_agent_run by exact Hcfg.
  rewrite Hresp, raise_for_status_2xx by exact Hstatus.
  cbn [snd]. unfold response_json. rewrite Hjson. reflexivity.
Qed.

Lemma invalid_json_body_raises_witness :
  configured Example.cfg = true
  /\ 200 <= status_code Example.resp_200_not_json < 300
  /\ json_body Example.resp_200_not_json = None
  /\ (call_cortex_agent Example.cfg
        (Example.respond Example.resp_200_not_json)
        (VStr "Q") None (Some (VStr "U1")) None []).2
     = inl JSONDecodeError.
Proof.
  split; [reflexivity|]. split; [simpl; lia|]. split; [reflexivity|].
  apply (invalid_json_body_raises Example.cfg
           (Example.respond Example.resp_200_not_json)
           (VStr "Q") None (Some (VStr "U1")) None []
           Example.resp_200_not_json).
  - reflexivity.
  - reflexivity.
  - simpl. lia.
  - reflexivity.
Defined.

(** ** Normalising and delivering the answer *)

Section HandlerEntry.

Variable cfg : Config.
Variable http_post : trace -> Request -> res Response.
Variable slack_conversations_open :
  trace -> value -> res (gmap string value).
Variable slack_chat_postMessage : trace -> Message -> res unit.
Variable str_strip : string -> string.
Variable str_exn : exn -> string.

(** A well-formed submission: once the question, the context and the user
    id have been read from the body, the handler acknowledges the view and
    runs the [try:] suite under the [except] suite. *)
Lemma handle_modal_submission_wellformed
  (body view state state_values query_block query_input : value)
  (context_block context_input user : value)
  (q : string) (context user_id : value) (tr : trace) :
  py_getitem body "view" = inr view ->
  py_getitem view "state" = inr state ->
  py_getitem state "values" = inr state_values ->
  py_getitem state_values "query_block" = inr query_block ->
  py_getitem query_block "query_input" = inr query_input ->
  py_getitem query_input "value" = inr (VStr q) ->
  py_get state_values "context_block" (VDict ∅) = inr context_block ->
  py_get context_block "context_input" (VDict ∅) = inr context_input ->
  py_get context_input "value" VNone = inr context ->
  py_get body "user" (VDict ∅) = inr user ->
  py_get user "id" VNone = inr user_id ->
  handle_modal_submission cfg http_post slack_conversations_open
    slack_chat_postMessage str_strip str_exn body tr
  = try_except
      (modal_try_suite cfg http_post slack_conversations_open
         slack_chat_postMessage (VStr (str_strip q)) context user_id)
      (modal_except_suite slack_conversations_open
         slack_chat_postMessage str_exn user_id)
      (tr ++ [Ack "clear"])%list.
Proof.
  intros Hview Hstate Hvalues Hqb Hqi Hq Hcb Hci Hctx Huser Hid.
  unfold handle_modal_submission, bind, lift, emit.
  rewrite Hview, Hstate, Hvalues, Hqb, Hqi, Hq. cbn [py_strip].
  rewrite Hcb, Hci, Hctx, Huser, Hid. reflexivity.
Qed.

(** The handler itself never raises once the body has been read: whatever
    goes wrong in the [try:] suite is caught, and so is whatever goes wrong
    while reporting it. *)
Lemma try_except_suites_never_raise (question context user_id : value)
  (tr : trace) :
  (try_except
     (modal_try_suite cfg http_post slack_conversations_open
        slack_chat_postMessage question context user_id)
     (modal_except_suite slack_conversations_open
        slack_chat_postMessage str_exn user_id) tr).2
  = inr tt.
Proof.
  unfold try_except.
  destruct (modal_try_suite _ _ _ _ _ _ _ tr) as [tr' [e|[]]];
    [|reflexivity].
  unfold modal_except_suite, bind, emit, try_except.
  destruct (open_dm _ _ _) as [tr2 [e2|ch]]; [reflexivity|].
  unfold chat_postMessage.
  destruct (slack_chat_postMessage _ _) as [e3|[]]; reflexivity.
Qed.

End HandlerEntry.

(** On a JSON object the answer expression never raises: it is the first
    truthy one of the [answer] field, the [message] field and the
    placeholder, a missing field counting as [None]. *)
Lemma display_text_dict (d : gmap string value) :
  display_text (VDict d)
  = inr (if truthy (default VNone (d !! "answer"))
         then default VNone (d !! "answer")
         else if truthy (default VNone (d !! "message"))
              then default VNone (d !! "message")
              else VStr placeholder).
Proof.
  unfold display_text, py_or, py_get.
  destruct (truthy (default VNone (d !! "answer"))) eqn:Ea.
  - cbv beta iota. rewrite Ea. reflexivity.
  - destruct (truthy (default VNone (d !! "message"))) eqn:Em;
      cbv beta iota; rewrite ?Em; reflexivity.
Qed.

Lemma absent_or_falsy_default (d : gmap string value) (key : string) :
  absent_or_falsy d key -> truthy (default VNone (d !! key)) = false.
Proof.
  unfold absent_or_falsy. intros H.
  destruct (d !! key) as [v|]; [apply H|]; reflexivity.
Qed.

Section HandlerFacts.

Variable cfg : Config.
Variable http_post : trace -> Request -> res Response.
Variable slack_conversations_open :
  trace -> value -> res (gmap string value).
Variable slack_chat_postMessage : trace -> Message -> res unit.
Variables question context user_id : value.
Variables tr tr1 : trace.
Variable d : gmap string value.
Variable dm : gmap string value.
Variables answer dm_channel : value.

Hypothesis relay_returns :
  call_cortex_agent cfg http_post question
    (Some context) (Some user_id) None tr
  = (tr1, inr (VDict d)).
Hypothesis answer_is : display_text (VDict d) = inr answer.
Hypothesis dm_opens : slack_conversations_open tr1 user_id = inr dm.
Hypothesis dm_channel_is :
  py_getitem (default VNone (dm !! "channel")) "id" = inr dm_channel.

(** A successful relay followed by a successful DM open ends in exactly
    one [chat_postMessage], chosen by the blocks test. *)
Lemma modal_try_suite_delivers :
  let blocks := default VNone (d !! "blocks") in
  let rich := default VNone (d !! "rich_text") in
  let msg :=
    if truthy blocks && isinstance_list blocks
    then mkMessage dm_channel (Some blocks) answer
    else mkMessage dm_channel None (text_out answer rich) in
  modal_try_suite cfg http_post slack_conversations_open
    slack_chat_postMessage question context user_id tr
  = ((tr1 ++ [ConversationsOpen user_id; ChatPostMessage msg])%list,
     slack_chat_postMessage (tr1 ++ [ConversationsOpen user_id])%list msg).
Proof.
  intros blocks rich msg.
  unfold modal_try_suite, bind. rewrite relay_returns.
  unfold lift. rewrite answer_is. unfold py_get.
  unfold open_dm, bind, conversations_open, lift.
  rewrite dm_opens, dm_channel_is.
  fold blocks rich. subst msg.
  destruct (truthy blocks && isinstance_list blocks);
    unfold chat_postMessage; rewrite <- app_assoc; reflexivity.
Qed.

End HandlerFacts.

(** C2, as the specification states it, fails: for the 2xx JSON response
    with an empty [answer] and the [message] "M", the answer field is
    present, yet the display text is "M" and not the (empty) answer; the
    handler posts "M". *)
Lemma empty_answer_falls_back_to_message :
  exists d,
    json_body Example.resp_empty_answer = Some (VDict d)
    /\ d !! "answer" = Some (VStr "")
    /\ Spec.displayText d = VStr ""
    /\ display_text (VDict d) = inr (VStr "M")
    /\ posted_messages
         (handle_modal_submission Example.cfg
            (Example.respond Example.resp_empty_answer)
            Example.slack_open Example.slack_post
            Example.strip Example.str_exn
            (Example.modal_body (VStr "Q") VNone (VStr "U1")) []).1
       = [mkMessage (VStr "D1") None (VStr "M")].
Proof. eexists. repeat split; reflexivity. Qed.

(** C2, amended: for every JSON object, the display text is the [answer]
    field when it is present and truthy (for a string: non-empty); otherwise
    the [message] field when that is present and truthy; otherwise the
    placeholder "No answer returned.". *)
Theorem display_text_first_truthy (d : gmap string value) :
  (forall a, d !! "answer" = Some a -> truthy a = true ->
     display_text (VDict d) = inr a)
  /\ (forall s, d !! "answer" = Some (VStr s) -> s <> "" ->
        display_text (VDict d) = inr (VStr s))
  /\ (forall m, absent_or_falsy d "answer" ->
        d !! "message" = Some m -> truthy m = true ->
        display_text (VDict d) = inr m)
  /\ (absent_or_falsy d "answer" -> absent_or_falsy d "message" ->
        display_text (VDict d) = inr (VStr "No answer returned.")).
Proof.
  rewrite display_text_dict. repeat split.
  - intros a Ha Ht. rewrite Ha. cbn [default from_option id]. unfold id.
    rewrite Ht. reflexivity.
  - intros s Ha Hs. rewrite Ha. cbn [default from_option truthy]. unfold id.
    apply String.eqb_neq in Hs. unfold truthy. rewrite Hs. reflexivity.
  - intros m Hno Hm Ht. rewrite (absent_or_falsy_default _ _ Hno).
    rewrite Hm. cbn [default from_option]. unfold id.
    rewrite Ht. reflexivity.
  - intros Hno Hnm.
    rewrite (absent_or_falsy_default _ _ Hno),
            (absent_or_falsy_default _ _ Hnm).
    reflexivity.
Qed.

Lemma display_text_first_truthy_witness :
  display_text (VDict {[ "answer" := VStr "X"; "message" := VStr "M" ]})
  = inr (VStr "X")
  /\ display_text (VDict {[ "answer" := VStr ""; "message" := VStr "M" ]})
     = inr (VStr "M")
  /\ display_text (VDict {[ "rich_text" := VStr "R" ]})
     = inr (VStr "No answer returned.").
Proof.
  split; [|split].
  - destruct (display_text_first_truthy
                {[ "answer" := VStr "X"; "message" := VStr "M" ]})
      as (_ & Hstr & _ & _).
    apply Hstr; [reflexivity | discriminate].
  - destruct (display_text_first_truthy
                {[ "answer" := VStr ""; "message" := VStr "M" ]})
      as (_ & _ & Hmsg & _).
    apply Hmsg; [|reflexivity|reflexivity].
    intros v Hv. vm_compute in Hv. injection Hv as <-. reflexivity.
  - destruct (display_text_first_truthy {[ "rich_text" := VStr "R" ]})
      as (_ & _ & _ & Hnone).
    apply Hnone; intros v Hv; vm_compute in Hv; discriminate Hv.
Defined.

(** C4: when the relay returns a JSON object whose [blocks] field is a
    non-empty list and the DM channel opens, the handler sends exactly one
    message, with these blocks and with the display text as its [text]
    fallback, whatever the other fields of the object are. *)
Theorem blocks_rendering_preferred
  (cfg : Config) (http_post : trace -> Request -> res Response)
  (slack_conversations_open : trace -> value -> res (gmap string value))
  (slack_chat_postMessage : trace -> Message -> res unit)
  (question context user_id : value) (tr tr1 : trace)
  (d dm : gmap string value) (bl : list value) (dm_channel : value) :
  call_cortex_agent cfg http_post question
    (Some context) (Some user_id) None tr
  = (tr1, inr (VDict d)) ->
  d !! "blocks" = Some (VList bl) ->
  bl <> [] ->
  slack_conversations_open tr1 user_id = inr dm ->
  py_getitem (default VNone (dm !! "channel")) "id" = inr dm_channel ->
  exists answer,
    display_text (VDict d) = inr answer
    /\ (modal_try_suite cfg http_post slack_conversations_open
          slack_chat_postMessage question context user_id tr).1
       = (tr1 ++ [ConversationsOpen user_id;
                  ChatPostMessage
                    (mkMessage dm_channel (Some (VList bl)) answer)])%list.
Proof.
  intros Hrelay Hblocks Hne Hopen Hchannel.
  eexists. split; [apply display_text_dict|].
  rewrite (modal_try_suite_delivers _ _ _ _ _ _ _ _ _ _ _ _ _
             Hrelay (display_text_dict d) Hopen Hchannel).
  rewrite Hblocks. cbn [default from_option fst]. unfold id.
  destruct bl as [|b bl']; [contradiction|]. reflexivity.
Qed.

Lemma blocks_rendering_preferred_witness :
  posted_messages
    (modal_try_suite Example.cfg (Example.respond Example.resp_blocks)
       Example.slack_open Example.slack_post
       (VStr "Q") VNone (VStr "U1") []).1
  = [mkMessage (VStr "D1")
       (Some (VList [VDict {[ "type" := VStr "divider" ]}])) (VStr "A")].
Proof.
  destruct (blocks_rendering_preferred Example.cfg
              (Example.respond Example.resp_blocks)
              Example.slack_open Example.slack_post
              (VStr "Q") VNone (VStr "U1") []
              (call_cortex_agent Example.cfg
                 (Example.respond Example.resp_blocks)
                 (VStr "Q") (Some VNone) (Some (VStr "U1")) None []).1
              {[ "answer" := VStr "A";
                 "rich_text" := VStr "*A*";
                 "blocks" := VList [VDict {[ "type" := VStr "divider" ]}] ]}
              {[ "channel" := VDict {[ "id" := VStr "D1" ]} ]}
              [VDict {[ "type" := VStr "divider" ]}]
              (VStr "D1")
              eq_refl eq_refl ltac:(discriminate) eq_refl eq_refl)
    as (answer & Hanswer & Htrace).
  rewrite Htrace, posted_messages_app.
  vm_compute in Hanswer. injection Hanswer as <-. reflexivity.
Defined.

(** C8, as the specification states it, fails: for the 2xx JSON response
    with the [answer] "A" and an empty [rich_text], there are no blocks and
    the rich text field is present, yet the handler posts the display text
    "A" and not the (empty) rich text. *)
Lemma empty_rich_text_falls_back_to_answer :
  exists d,
    json_body Example.resp_empty_rich = Some (VDict d)
    /\ d !! "blocks" = None
    /\ d !! "rich_text" = Some (VStr "")
    /\ Spec.renderedText d (VStr "A") = VStr ""
    /\ posted_messages
         (handle_modal_submission Example.cfg
            (Example.respond Example.resp_empty_rich)
            Example.slack_open Example.slack_post
            Example.strip Example.str_exn
            (Example.modal_body (VStr "Q") VNone (VStr "U1")) []).1
       = [mkMessage (VStr "D1") None (VStr "A")].
Proof. eexists. repeat split; reflexivity. Qed.

(** C8, amended: when the relay returns a JSON object whose [blocks] field
    is absent or is not a non-empty list and the DM channel opens, the
    handler sends exactly one message, without blocks; its text is the
    [rich_text] field when that is present and truthy (for a string:
    non-empty), and the display text otherwise. *)
Theorem text_rendering_without_blocks
  (cfg : Config) (http_post : trace -> Request -> res Response)
  (slack_conversations_open : trace -> value -> res (gmap string value))
  (slack_chat_postMessage : trace -> Message -> res unit)
  (question context user_id : value) (tr tr1 : trace)
  (d dm : gmap string value) (dm_channel : value) :
  call_cortex_agent cfg http_post question
    (Some context) (Some user_id) None tr
  = (tr1, inr (VDict d)) ->
  (forall bl, d !! "blocks" = Some (VList bl) -> bl = []) ->
  slack_conversations_open tr1 user_id = inr dm ->
  py_getitem (default VNone (dm !! "channel")) "id" = inr dm_channel ->
  exists answer text,
    display_text (VDict d) = inr answer
    /\ (modal_try_suite cfg http_post slack_conversations_open
          slack_chat_postMessage question context user_id tr).1
       = (tr1 ++ [ConversationsOpen user_id;
                  ChatPostMessage (mkMessage dm_channel None text)])%list
    /\ (forall r, d !! "rich_text" = Some r -> truthy r = true -> text = r)
    /\ (absent_or_falsy d "rich_text" -> text = answer).
Proof.
  intros Hrelay Hblocks Hopen Hchannel.
  eexists. eexists. split; [apply display_text_dict|].
  rewrite (modal_try_suite_delivers _ _ _ _ _ _ _ _ _ _ _ _ _
             Hrelay (display_text_dict d) Hopen Hchannel).
  assert (Hnot : truthy (default VNone (d !! "blocks"))
                 && isinstance_list (default VNone (d !! "blocks")) = false).
  { destruct (d !! "blocks") as [[| | | | |bl|]|] eqn:E;
      cbn [default from_option]; unfold id;
      cbn [isinstance_list]; rewrite ?andb_false_r; try reflexivity.
    rewrite (Hblocks bl eq_refl). reflexivity. }
  rewrite Hnot. cbn [fst]. split; [reflexivity|]. split.
  - intros r Hr Ht. rewrite Hr. cbn [default from_option]. unfold id, text_out.
    rewrite Ht. reflexivity.
  - intros Hfalsy. unfold text_out.
    rewrite (absent_or_falsy_default _ _ Hfalsy). reflexivity.
Qed.

Lemma text_rendering_without_blocks_witness :
  posted_messages
    (modal_try_suite Example.cfg (Example.respond Example.resp_rich)
       Example.slack_open Example.slack_post
       (VStr "Q") VNone (VStr "U1") []).1
  = [mkMessage (VStr "D1") None (VStr "*A*")].
Proof.
  destruct (text_rendering_without_blocks Example.cfg
              (Example.respond Example.resp_rich)
              Example.slack_open Example.slack_post
              (VStr "Q") VNone (VStr "U1") []
              (call_cortex_agent Example.cfg
                 (Example.respond Example.resp_rich)
                 (VStr "Q") (Some VNone) (Some (VStr "U1")) None []).1
              {[ "answer" := VStr "A"; "rich_text" := VStr "*A*" ]}
              {[ "channel" := VDict {[ "id" := VStr "D1" ]} ]}
              (VStr "D1")
              eq_refl
              ltac:(intros bl Hbl; vm_compute in Hbl; discriminate Hbl)
              eq_refl eq_refl)
    as (answer & text & _ & Htrace & Hrich & _).
  rewrite Htrace, posted_messages_app.
  rewrite (Hrich (VStr "*A*") eq_refl eq_refl). reflexivity.
Defined.

(** * Further properties of the code *)

(** ** The relay: every outcome *)

(** X1: a call issues one POST when both settings are set and non-empty
    and none otherwise, whatever the transport answers: there is never a
    second attempt. *)
Theorem post_count_by_configuration
  (cfg : Config) (http_post : trace -> Request -> res Response)
  (question : value) (context user_id channel_id : option value) (tr : trace) :
  count_posts
    (call_cortex_agent cfg http_post question
       context user_id channel_id tr).1
  = (count_posts tr + (if configured cfg then 1 else 0))%nat.
Proof.
  destruct (configured cfg) eqn:Hcfg.
  - rewrite call_cortex_agent_run by exact Hcfg.
    cbn [fst]. rewrite count_posts_app. reflexivity.
  - rewrite call_cortex_agent_guard by exact Hcfg.
    cbn [fst]. lia.
Qed.

(** X2: a setting that is set to the empty string is treated like an unset
    one: the call raises the configuration error with the trace unchanged. *)
Theorem empty_setting_raises_without_network
  (cfg : Config) (http_post : trace -> Request -> res Response)
  (question : value) (context user_id channel_id : option value) (tr : trace) :
  CORTEX_AGENT_URL cfg = Some "" \/ CORTEX_API_KEY cfg = Some "" ->
  call_cortex_agent cfg http_post question context user_id channel_id tr
  = (tr, inl (ValueError config_error_message)).
Proof.
  intros Hempty. apply call_cortex_agent_guard. unfold configured.
  destruct Hempty as [-> | ->]; cbn [env_truthy String.eqb negb];
    [reflexivity | apply andb_false_r].
Qed.

Lemma empty_setting_raises_without_network_witness :
  (CORTEX_AGENT_URL Scenario.cfg_empty_key = Some ""
   \/ CORTEX_API_KEY Scenario.cfg_empty_key = Some "")
  /\ call_cortex_agent Scenario.cfg_empty_key
       (Example.respond Example.resp_blocks)
       (VStr "Q") None (Some (VStr "U1")) None []
     = ([], inl (ValueError config_error_message)).
Proof.
  split; [right; reflexivity|].
  apply (empty_setting_raises_without_network Scenario.cfg_empty_key
           (Example.respond Example.resp_blocks)
           (VStr "Q") None (Some (VStr "U1")) None []).
  right. reflexivity.
Defined.

(** X3: an exception of the transport (a connection failure, a timeout)
    leaves the call unchanged, after the one POST that caused it. *)
Theorem transport_error_propagates
  (cfg : Config) (http_post : trace -> Request -> res Response)
  (question : value) (context user_id channel_id : option value) (tr : trace)
  (e : exn) :
  configured cfg = true ->
  http_post (tr ++ [calling_log cfg])%list
    (cortex_request cfg question
       (kwarg context) (kwarg user_id) (kwarg channel_id))
  = inl e ->
  call_cortex_agent cfg http_post question context user_id channel_id tr
  = ((tr ++ [calling_log cfg;
             HttpPost (cortex_request cfg question
                         (kwarg context) (kwarg user_id) (kwarg channel_id))])%list,
     inl e).
Proof.
  intros Hcfg Hfail.
  rewrite call_cortex_agent_run by exact Hcfg.
  rewrite Hfail. reflexivity.
Qed.

Lemma transport_error_propagates_witness :
  configured Example.cfg = true
  /\ (call_cortex_agent Example.cfg Scenario.timing_out
        (VStr "Q") None (Some (VStr "U1")) None []).2
     = inl (Timeout "Read timed out.").
Proof.
  split; [reflexivity|].
  rewrite (transport_error_propagates Example.cfg Scenario.timing_out
             (VStr "Q") None (Some (VStr "U1")) None []
             (Timeout "Read timed out.") eq_refl eq_refl).
  reflexivity.
Defined.

(** X4: what a call can end in.  A returned value is the JSON body of a
    response whose status is outside 400..599.  A raised exception is the
    configuration error (settings missing), the transport's own exception,
    the HTTP error of a response with status in 400..599, or the JSON
    decoding error of a response outside that range; nothing else is ever
    raised. *)
Theorem call_cortex_agent_outcomes
  (cfg : Config) (http_post : trace -> Request -> res Response)
  (question : value) (context user_id channel_id : option value) (tr : trace) :
  let answer :=
    http_post (tr ++ [calling_log cfg])%list
      (cortex_request cfg question
         (kwarg context) (kwarg user_id) (kwarg channel_id)) in
  match (call_cortex_agent cfg http_post question
           context user_id channel_id tr).2 with
  | inr v =>
      configured cfg = true
      /\ exists resp,
           answer = inr resp
           /\ ~ (400 <= status_code resp < 600)
           /\ json_body resp = Some v
  | inl e =>
      (configured cfg = false /\ e = ValueError config_error_message)
      \/ (configured cfg = true /\ answer = inl e)
      \/ (configured cfg = true
          /\ exists resp,
               answer = inr resp
               /\ ((400 <= status_code resp < 600 /\ e = HTTPError resp)
                   \/ (~ (400 <= status_code resp < 600)
                       /\ json_body resp = None
                       /\ e = JSONDecodeError)))
  end.
Proof.
  intros answer. subst answer.
  destruct (configured cfg) eqn:Hcfg.
  - rewrite call_cortex_agent_run by exact Hcfg. cbn [snd].
    destruct (http_post _ _) as [e|resp].
    + right. left. split; reflexivity.
    + unfold raise_for_status, response_json.
      destruct (400 <=? status_code resp) eqn:Hlo;
        destruct (status_code resp <? 600) eqn:Hhi; cbn [andb];
        try (apply Z.leb_le in Hlo); try (apply Z.leb_gt in Hlo);
        try (apply Z.ltb_lt in Hhi); try (apply Z.ltb_ge in Hhi).
      * right. right. split; [reflexivity|]. exists resp.
        split; [reflexivity|]. left. split; [lia | reflexivity].
      * destruct (json_body resp) as [v|] eqn:Hjson.
        -- split; [reflexivity|]. exists resp. repeat split; [lia|exact Hjson].
        -- right. right. split; [reflexivity|]. exists resp.
           split; [reflexivity|]. right. repeat split; [lia|exact Hjson].
      * destruct (json_body resp) as [v|] eqn:Hjson.
        -- split; [reflexivity|]. exists resp. repeat split; [lia|exact Hjson].
        -- right. right. split; [reflexivity|]. exists resp.
           split; [reflexivity|]. right. repeat split; [lia|exact Hjson].
      * destruct (json_body resp) as [v|] eqn:Hjson.
        -- split; [reflexivity|]. exists resp. repeat split; [lia|exact Hjson].
        -- right. right. split; [reflexivity|]. exists resp.
           split; [reflexivity|]. right. repeat split; [lia|exact Hjson].
  - rewrite call_cortex_agent_guard by exact Hcfg. cbn [snd].
    left. split; reflexivity.
Qed.

(** X5: when the transport answers the POST with a response whose status
    is outside 400..599 and whose body is JSON, the call returns that JSON
    value, after one log record and one POST. *)
Theorem success_returns_json
  (cfg : Config) (http_post : trace -> Request -> res Response)
  (question : value) (context user_id channel_id : option value) (tr : trace)
  (resp : Response) (v : value) :
  configured cfg = true ->
  http_post (tr ++ [calling_log cfg])%list
    (cortex_request cfg question
       (kwarg context) (kwarg user_id) (kwarg channel_id))
  = inr resp ->
  ~ (400 <= status_code resp < 600) ->
  json_body resp = Some v ->
  call_cortex_agent cfg http_post question context user_id channel_id tr
  = ((tr ++ [calling_log cfg;
             HttpPost (cortex_request cfg question
                         (kwarg context) (kwarg user_id) (kwarg channel_id))])%list,
     inr v).
Proof.
  intros Hcfg Hresp Hstatus Hjson.
  rewrite call_cortex_agent_run by exact Hcfg.
  rewrite Hresp. unfold raise_for_status, response_json.
  rewrite Hjson.
  destruct (400 <=? status_code resp) eqn:Hlo;
    destruct (status_code resp <? 600) eqn:Hhi; cbn [andb];
    try reflexivity.
  apply Z.leb_le in Hlo. apply Z.ltb_lt in Hhi. lia.
Qed.

Lemma success_returns_json_witness :
  configured Example.cfg = true
  /\ ~ (400 <= status_code Example.resp_rich < 600)
  /\ (call_cortex_agent Example.cfg (Example.respond Example.resp_rich)
        (VStr "Q") None (Some (VStr "U1")) None []).2
     = inr (VDict {[ "answer" := VStr "A"; "rich_text" := VStr "*A*" ]}).
Proof.
  split; [reflexivity|]. split; [simpl; lia|].
  rewrite (success_returns_json Example.cfg
             (Example.respond Example.resp_rich)
             (VStr "Q") None (Some (VStr "U1")) None []
             Example.resp_rich
             (VDict {[ "answer" := VStr "A"; "rich_text" := VStr "*A*" ]})
             eq_refl eq_refl ltac:(simpl; lia) eq_refl).
  reflexivity.
Defined.

(** X6: with the URL [url] and the key [key] set, the one request goes to
    [url] with the configured timeout, and its headers are exactly the
    bearer authorization with [key] and the JSON content type and accept
    headers. *)
Theorem request_envelope
  (cfg : Config) (http_post : trace -> Request -> res Response)
  (question : value) (context user_id channel_id : option value) (tr : trace)
  (url key : string) :
  CORTEX_AGENT_URL cfg = Some url -> url <> "" ->
  CORTEX_API_KEY cfg = Some key -> key <> "" ->
  exists req,
    (call_cortex_agent cfg http_post question
       context user_id channel_id tr).1
    = (tr ++ [LogInfo "Calling Cortex Agent: %s" (Some url);
              HttpPost req])%list
    /\ req_url req = Some url
    /\ req_timeout req = CORTEX_TIMEOUT_SECONDS cfg
    /\ req_headers req
       = {[ "Authorization" := "Bearer " ++ key;
            "Content-Type" := "application/json";
            "Accept" := "application/json" ]}.
Proof.
  intros Hurl Hurl_ne Hkey Hkey_ne.
  assert (Hcfg : configured cfg = true).
  { unfold configured. rewrite Hurl, Hkey. cbn [env_truthy].
    apply String.eqb_neq in Hurl_ne, Hkey_ne.
    rewrite Hurl_ne, Hkey_ne. reflexivity. }
  eexists. rewrite call_cortex_agent_run by exact Hcfg.
  unfold calling_log, cortex_request. rewrite Hurl, Hkey.
  cbn [fst req_url req_timeout req_headers].
  repeat split; reflexivity.
Qed.

Lemma request_envelope_witness :
  exists req,
    (call_cortex_agent Example.cfg Example.unreachable
       (VStr "Q") None None None []).1
    = [LogInfo "Calling Cortex Agent: %s"
         (Some "https://cortex.example/api/v1/agent/invoke");
       HttpPost req]
    /\ req_url req = Some "https://cortex.example/api/v1/agent/invoke"
    /\ req_timeout req = 60
    /\ req_headers req
       = {[ "Authorization" := "Bearer secret";
            "Content-Type" := "application/json";
            "Accept" := "application/json" ]}.
Proof.
  apply (request_envelope Example.cfg Example.unreachable
           (VStr "Q") None None None []
           "https://cortex.example/api/v1/agent/invoke" "secret");
    [reflexivity | discriminate | reflexivity | discriminate].
Defined.

Lemma value_dict_inj (d d' : gmap string value) : VDict d = VDict d' -> d = d'.
Proof. intros H. injection H as H. exact H. Qed.

(** X7: the payload determines what it was built from: two payloads are
    equal only if the questions, the user ids and the channel ids are
    equal, and the contexts are both falsy or are equal. *)
Theorem cortex_payload_injective
  (q c u ch q' c' u' ch' : value) :
  cortex_payload q c u ch = cortex_payload q' c' u' ch' ->
  q = q' /\ u = u' /\ ch = ch'
  /\ truthy c = truthy c'
  /\ (truthy c = true -> c = c').
Proof.
  intros H.
  pose proof (f_equal (fun m : gmap string value => m !! "question") H) as Hq.
  pose proof (f_equal (fun m : gmap string value => m !! "metadata") H) as Hm.
  pose proof (f_equal (fun m : gmap string value => m !! "context") H) as Hc.
  clear H.
  assert (Hmd : ({[ "slack_user_id" := u; "slack_channel_id" := ch ]}
                   : gmap string value)
                = {[ "slack_user_id" := u'; "slack_channel_id" := ch' ]}).
  { apply value_dict_inj. apply (inj Some).
    unfold cortex_payload in Hm.
    destruct (truthy c), (truthy c'); exact Hm. }
  pose proof (f_equal (fun m : gmap string value => m !! "slack_user_id")
                Hmd) as Hu.
  pose proof (f_equal (fun m : gmap string value => m !! "slack_channel_id")
                Hmd) as Hch.
  clear Hm Hmd.
  apply (inj Some) in Hu, Hch. subst u' ch'.
  assert (Hqq : q = q').
  { apply (inj Some). unfold cortex_payload in Hq.
    destruct (truthy c), (truthy c'); exact Hq. }
  subst q'. clear Hq.
  unfold cortex_payload in Hc.
  destruct (truthy c) eqn:Ec, (truthy c') eqn:Ec'.
  - apply (inj Some) in Hc. subst c'. repeat split; reflexivity.
  - discriminate Hc.
  - discriminate Hc.
  - repeat split; try reflexivity. discriminate.
Qed.

Lemma cortex_payload_injective_witness :
  VStr "Q" = VStr "Q" /\ VStr "U1" = VStr "U1" /\ VNone = VNone
  /\ truthy (VStr "") = truthy VNone
  /\ (truthy (VStr "") = true -> VStr "" = VNone).
Proof.
  apply (cortex_payload_injective
           (VStr "Q") (VStr "") (VStr "U1") VNone
           (VStr "Q") VNone (VStr "U1") VNone).
  reflexivity.
Defined.

(** ** The modal submission, from the request to the reply *)

Lemma delivery_has_no_posts (rest : trace) :
  forallb is_delivery rest = true ->
  count_posts rest = 0%nat /\ posted_payloads rest = [].
Proof.
  induction rest as [|e rest IH]; [split; reflexivity|].
  cbn [forallb]. intros H. apply andb_true_iff in H. destruct H as [He Hrest].
  destruct e; try discriminate He; cbn [count_posts posted_payloads];
    apply IH; exact Hrest.
Qed.

Section SubmissionFacts.

Variable cfg : Config.
Variable http_post : trace -> Request -> res Response.
Variable slack_conversations_open :
  trace -> value -> res (gmap string value).
Variable slack_chat_postMessage : trace -> Message -> res unit.
Variable str_strip : string -> string.
Variable str_exn : exn -> string.

Abbreviation try_suite :=
  (modal_try_suite cfg http_post slack_conversations_open
     slack_chat_postMessage).
Abbreviation except_suite :=
  (modal_except_suite slack_conversations_open slack_chat_postMessage
     str_exn).
Abbreviation handler :=
  (handle_modal_submission cfg http_post slack_conversations_open
     slack_chat_postMessage str_strip str_exn).

Lemma handler_reads (body : value) (q : string) (context user_id : value)
  (tr : trace) :
  submission_reads body q context user_id ->
  handler body tr
  = try_except (try_suite (VStr (str_strip q)) context user_id)
               (except_suite user_id) (tr ++ [Ack "clear"])%list.
Proof.
  intros (view & state & state_values & query_block & query_input
          & context_block & context_input & user
          & H1 & H2 & H3 & H4 & H5 & H6 & H7 & H8 & H9 & H10 & H11).
  eapply handle_modal_submission_wellformed; eassumption.
Qed.

(** After the relay call the [try:] suite only talks to Slack. *)
Lemma try_suite_trace (question context user_id : value) (tr : trace) :
  exists rest,
    (try_suite question context user_id tr).1
    = ((call_cortex_agent cfg http_post question
          (Some context) (Some user_id) None tr).1 ++ rest)%list
    /\ forallb is_delivery rest = true.
Proof.
  unfold modal_try_suite, bind.
  destruct (call_cortex_agent _ _ _ _ _ _ tr) as [tr1 [e|result]]; cbn [fst].
  { exists []. rewrite app_nil_r. split; reflexivity. }
  unfold lift.
  destruct (display_text result) as [e|answer].
  { exists []. rewrite app_nil_r. split; reflexivity. }
  destruct (py_get result "rich_text" VNone) as [e|rich].
  { exists []. rewrite app_nil_r. split; reflexivity. }
  destruct (py_get result "blocks" VNone) as [e|blocks].
  { exists []. rewrite app_nil_r. split; reflexivity. }
  unfold open_dm, bind, conversations_open, lift.
  destruct (slack_conversations_open tr1 user_id) as [e|dm].
  { eexists. split; reflexivity. }
  destruct (py_getitem _ "id") as [e|dm_channel].
  { eexists. split; reflexivity. }
  destruct (truthy blocks && isinstance_list blocks);
    unfold chat_postMessage; cbn [fst]; rewrite <- app_assoc;
    eexists; split; reflexivity.
Qed.

(** The [except] suite logs, tries to report, and never raises. *)
Lemma except_suite_trace (user_id : value) (e : exn) (tr : trace) :
  exists rest,
    except_suite user_id e tr = ((tr ++ rest)%list, inr tt)
    /\ forallb is_delivery rest = true.
Proof.
  unfold modal_except_suite, bind, emit, try_except.
  unfold open_dm, bind, conversations_open, lift, ret.
  destruct (slack_conversations_open _ user_id) as [e1|dm].
  { rewrite <- app_assoc. eexists. split; reflexivity. }
  destruct (py_getitem _ "id") as [e2|dm_channel].
  { rewrite <- app_assoc. eexists. split; reflexivity. }
  unfold chat_postMessage.
  destruct (slack_chat_postMessage _ _) as [e3|[]];
    rewrite <- !app_assoc; eexists; split; reflexivity.
Qed.

(** The two suites together: the relay's trace, then Slack only, and a
    normal return. *)
Lemma suites_trace (question context user_id : value) (tr : trace) :
  exists rest,
    try_except (try_suite question context user_id)
               (except_suite user_id) tr
    = (((call_cortex_agent cfg http_post question
           (Some context) (Some user_id) None tr).1 ++ rest)%list,
       inr tt)
    /\ forallb is_delivery rest = true.
Proof.
  destruct (try_suite_trace question context user_id tr)
    as (rest1 & Htrace & Hrest1).
  unfold try_except.
  destruct (try_suite question context user_id tr) as [tr1 [e|[]]];
    cbn [fst] in Htrace; subst tr1.
  - destruct (except_suite_trace user_id e
                ((call_cortex_agent cfg http_post question
                    (Some context) (Some user_id) None tr).1 ++ rest1)%list)
      as (rest2 & -> & Hrest2).
    exists (rest1 ++ rest2)%list. rewrite <- app_assoc.
    split; [reflexivity|].
    rewrite forallb_app, Hrest1, Hrest2. reflexivity.
  - exists rest1. split; [reflexivity | exact Hrest1].
Qed.

End SubmissionFacts.

(** X8: once the handler has read the submission, it never raises: it
    acknowledges the view and returns normally, whatever the relay and the
    Slack client do. *)
Theorem handler_returns_normally
  (cfg : Config) (http_post : trace -> Request -> res Response)
  (slack_conversations_open : trace -> value -> res (gmap string value))
  (slack_chat_postMessage : trace -> Message -> res unit)
  (str_strip : string -> string) (str_exn : exn -> string)
  (body : value) (q : string) (context user_id : value) (tr : trace) :
  submission_reads body q context user_id ->
  exists rest,
    handle_modal_submission cfg http_post slack_conversations_open
      slack_chat_postMessage str_strip str_exn body tr
    = ((tr ++ Ack "clear" :: rest)%list, inr tt).
Proof.
  intros Hreads. rewrite (handler_reads _ _ _ _ _ _ _ _ _ _ _ Hreads).
  destruct (suites_trace cfg http_post slack_conversations_open
              slack_chat_postMessage str_exn
              (VStr (str_strip q)) context user_id (tr ++ [Ack "clear"])%list)
    as (rest & -> & _).
  destruct (configured cfg) eqn:Hcfg.
  - rewrite call_cortex_agent_run by exact Hcfg. cbn [fst].
    rewrite <- !app_assoc. eexists. reflexivity.
  - rewrite call_cortex_agent_guard by exact Hcfg. cbn [fst].
    rewrite <- !app_assoc. eexists. reflexivity.
Qed.

Lemma submission_reads_example :
  submission_reads (Example.modal_body (VStr " Q ") VNone (VStr "U1"))
    " Q " VNone (VStr "U1").
Proof. unfold submission_reads. repeat eexists; reflexivity. Qed.

Lemma handler_returns_normally_witness :
  (handle_modal_submission Example.cfg Scenario.timing_out
     Scenario.slack_open_fails Example.slack_post
     Example.strip Example.str_exn
     (Example.modal_body (VStr " Q ") VNone (VStr "U1")) []).2
  = inr tt.
Proof.
  destruct (handler_returns_normally Example.cfg Scenario.timing_out
              Scenario.slack_open_fails Example.slack_post
              Example.strip Example.str_exn
              (Example.modal_body (VStr " Q ") VNone (VStr "U1"))
              " Q " VNone (VStr "U1") [] submission_reads_example)
    as (rest & ->).
  reflexivity.
Defined.

(** X9: the handler raises only while reading the request body, that is
    before the relay is called: when it raises, nothing has happened except
    possibly the acknowledgement. *)
Theorem handler_raises_only_before_relay
  (cfg : Config) (http_post : trace -> Request -> res Response)
  (slack_conversations_open : trace -> value -> res (gmap string value))
  (slack_chat_postMessage : trace -> Message -> res unit)
  (str_strip : string -> string) (str_exn : exn -> string)
  (body : value) (tr : trace) (e : exn) :
  (handle_modal_submission cfg http_post slack_conversations_open
     slack_chat_postMessage str_strip str_exn body tr).2 = inl e ->
  (handle_modal_submission cfg http_post slack_conversations_open
     slack_chat_postMessage str_strip str_exn body tr).1 = tr
  \/ (handle_modal_submission cfg http_post slack_conversations_open
        slack_chat_postMessage str_strip str_exn body tr).1
     = (tr ++ [Ack "clear"])%list.
Proof.
  unfold handle_modal_submission, bind, lift, emit.
  destruct (py_getitem body "view") as [?|view]; [left; reflexivity|].
  destruct (py_getitem view "state") as [?|state]; [left; reflexivity|].
  destruct (py_getitem state "values") as [?|state_values];
    [left; reflexivity|].
  destruct (py_getitem state_values "query_block") as [?|query_block];
    [left; reflexivity|].
  destruct (py_getitem query_block "query_input") as [?|query_input];
    [left; reflexivity|].
  destruct (py_getitem query_input "value") as [?|query_value];
    [left; reflexivity|].
  destruct (py_strip str_strip query_value) as [?|question];
    [left; reflexivity|].
  destruct (py_get state_values "context_block" (VDict ∅))
    as [?|context_block]; [left; reflexivity|].
  destruct (py_get context_block "context_input" (VDict ∅))
    as [?|context_input]; [left; reflexivity|].
  destruct (py_get context_input "value" VNone) as [?|context];
    [left; reflexivity|].
  destruct (py_get body "user" (VDict ∅)) as [?|user];
    [right; reflexivity|].
  destruct (py_get user "id" VNone) as [?|user_id];
    [right; reflexivity|].
  intros Hraise.
  rewrite (try_except_suites_never_raise cfg http_post
             slack_conversations_open slack_chat_postMessage str_exn
             question context user_id) in Hraise.
  discriminate Hraise.
Qed.

Lemma handler_raises_only_before_relay_witness :
  (handle_modal_submission Example.cfg Example.unreachable
     Example.slack_open Example.slack_post Example.strip Example.str_exn
     (Example.modal_body VNone VNone (VStr "U1")) []).2
  = inl (AttributeError VNone "strip")
  /\ (handle_modal_submission Example.cfg Example.unreachable
        Example.slack_open Example.slack_post Example.strip Example.str_exn
        (Example.modal_body VNone VNone (VStr "U1")) []).1
     = [].
Proof.
  split; [reflexivity|].
  destruct (handler_raises_only_before_relay Example.cfg Example.unreachable
              Example.slack_open Example.slack_post
              Example.strip Example.str_exn
              (Example.modal_body VNone VNone (VStr "U1")) []
              (AttributeError VNone "strip") eq_refl) as [H | H].
  - exact H.
  - discriminate H.
Defined.

(** X10: a submission that was read sends, when both settings are present,
    exactly one payload: the question stripped of surrounding whitespace,
    the context when it is truthy, the submitting user's id, and always
    [None] as the channel id. *)
Theorem handler_posts_one_payload
  (cfg : Config) (http_post : trace -> Request -> res Response)
  (slack_conversations_open : trace -> value -> res (gmap string value))
  (slack_chat_postMessage : trace -> Message -> res unit)
  (str_strip : string -> string) (str_exn : exn -> string)
  (body : value) (q : string) (context user_id : value) (tr : trace) :
  submission_reads body q context user_id ->
  configured cfg = true ->
  posted_payloads
    (handle_modal_submission cfg http_post slack_conversations_open
       slack_chat_postMessage str_strip str_exn body tr).1
  = (posted_payloads tr
     ++ [VDict (cortex_payload (VStr (str_strip q)) context user_id VNone)])%list.
Proof.
  intros Hreads Hcfg. rewrite (handler_reads _ _ _ _ _ _ _ _ _ _ _ Hreads).
  destruct (suites_trace cfg http_post slack_conversations_open
              slack_chat_postMessage str_exn
              (VStr (str_strip q)) context user_id (tr ++ [Ack "clear"])%list)
    as (rest & -> & Hrest).
  apply delivery_has_no_posts in Hrest. destruct Hrest as [_ Hrest].
  rewrite call_cortex_agent_run by exact Hcfg. cbn [fst].
  rewrite !posted_payloads_app, Hrest, app_nil_r.
  cbn [posted_payloads]. rewrite app_nil_r. reflexivity.
Qed.

Lemma handler_posts_one_payload_witness :
  posted_payloads
    (handle_modal_submission Example.cfg
       (Example.respond Example.resp_rich)
       Example.slack_open Example.slack_post Example.strip Example.str_exn
       (Example.modal_body (VStr " Q ") VNone (VStr "U1")) []).1
  = [VDict {[ "question" := VStr "Q";
              "source" := VStr "slack";
              "metadata" := VDict {[ "slack_user_id" := VStr "U1";
                                     "slack_channel_id" := VNone ]} ]}].
Proof.
  rewrite (handler_posts_one_payload Example.cfg
             (Example.respond Example.resp_rich)
             Example.slack_open Example.slack_post
             Example.strip Example.str_exn
             (Example.modal_body (VStr " Q ") VNone (VStr "U1"))
             " Q " VNone (VStr "U1") []
             submission_reads_example eq_refl).
  reflexivity.
Defined.

(** X11: no submission, well-formed or not, makes the handler issue more
    than one POST. *)
Theorem handler_posts_at_most_once
  (cfg : Config) (http_post : trace -> Request -> res Response)
  (slack_conversations_open : trace -> value -> res (gmap string value))
  (slack_chat_postMessage : trace -> Message -> res unit)
  (str_strip : string -> string) (str_exn : exn -> string)
  (body : value) (tr : trace) :
  (count_posts
     (handle_modal_submission cfg http_post slack_conversations_open
        slack_chat_postMessage str_strip str_exn body tr).1
   <= S (count_posts tr))%nat.
Proof.
  unfold handle_modal_submission, bind, lift, emit.
  repeat match goal with
         | |- context [match ?r with inl _ => _ | inr _ => _ end] =>
             lazymatch r with
             | py_getitem _ _ => destruct r as [?|?]
             | py_get _ _ _ => destruct r as [?|?]
             | py_strip _ _ => destruct r as [?|?]
             end
         end;
    cbn [fst]; rewrite ?count_posts_app; cbn [count_posts]; try lia.
  match goal with
  | |- context [try_except (modal_try_suite _ _ _ _ ?q ?c ?u) _ ?t] =>
      destruct (suites_trace cfg http_post slack_conversations_open
                  slack_chat_postMessage str_exn q c u t)
        as (rest & -> & Hrest)
  end.
  apply delivery_has_no_posts in Hrest. destruct Hrest as [Hrest _].
  cbn [fst]. rewrite count_posts_app, Hrest.
  destruct (configured cfg) eqn:Hcfg.
  - rewrite call_cortex_agent_run by exact Hcfg. cbn [fst].
    rewrite !count_posts_app. unfold calling_log. cbn [count_posts]. lia.
  - rewrite call_cortex_agent_guard by exact Hcfg. cbn [fst].
    rewrite count_posts_app. cbn [count_posts]. lia.
Qed.

(** X12: when the [try:] suite raises, for instance because the relay
    failed, and the DM channel can be opened, the handler logs the
    exception, sends the user one apology that quotes it, and returns
    normally. *)
Theorem failure_is_reported
  (cfg : Config) (http_post : trace -> Request -> res Response)
  (slack_conversations_open : trace -> value -> res (gmap string value))
  (slack_chat_postMessage : trace -> Message -> res unit)
  (str_exn : exn -> string)
  (question context user_id : value) (tr tr1 : trace) (e : exn)
  (dm : gmap string value) (dm_channel : value) :
  let logged := (tr1 ++ [LogException "Cortex call failed: %s" e])%list in
  modal_try_suite cfg http_post slack_conversations_open
    slack_chat_postMessage question context user_id tr
  = (tr1, inl e) ->
  slack_conversations_open logged user_id = inr dm ->
  py_getitem (default VNone (dm !! "channel")) "id" = inr dm_channel ->
  try_except
    (modal_try_suite cfg http_post slack_conversations_open
       slack_chat_postMessage question context user_id)
    (modal_except_suite slack_conversations_open slack_chat_postMessage
       str_exn user_id) tr
  = ((logged
      ++ [ConversationsOpen user_id;
          ChatPostMessage
            (mkMessage dm_channel None
               (VStr ("Sorry, I couldn't complete that request: "
                      ++ str_exn e)))])%list,
     inr tt).
Proof.
  intros logged Hraise Hopen Hchannel. subst logged.
  unfold try_except at 1. rewrite Hraise.
  unfold modal_except_suite, bind, emit, try_except.
  unfold open_dm, bind, conversations_open, lift.
  rewrite Hopen, Hchannel. unfold chat_postMessage, ret.
  rewrite <- !app_assoc.
  destruct (slack_chat_postMessage _ _) as [e'|[]]; reflexivity.
Qed.

Lemma failure_is_reported_witness :
  posted_messages
    (try_except
       (modal_try_suite Example.cfg (Example.respond Example.resp_500)
          Example.slack_open Example.slack_post
          (VStr "Q") VNone (VStr "U1"))
       (modal_except_suite Example.slack_open Example.slack_post
          Example.str_exn (VStr "U1")) []).1
  = [mkMessage (VStr "D1") None
       (VStr "Sorry, I couldn't complete that request: HTTPError")].
Proof.
  rewrite (failure_is_reported Example.cfg
             (Example.respond Example.resp_500)
             Example.slack_open Example.slack_post Example.str_exn
             (VStr "Q") VNone (VStr "U1") []
             (call_cortex_agent Example.cfg
                (Example.respond Example.resp_500)
                (VStr "Q") (Some VNone) (Some (VStr "U1")) None []).1
             (HTTPError Example.resp_500)
             {[ "channel" := VDict {[ "id" := VStr "D1" ]} ]}
             (VStr "D1") eq_refl eq_refl eq_refl).
  reflexivity.
Defined.

(** X13: when the [try:] suite raises and the DM channel cannot be opened
    either, the handler gives up silently: the exception is logged, no
    message is posted after it, and the handler returns normally. *)
Theorem unreportable_failure_is_swallowed
  (cfg : Config) (http_post : trace -> Request -> res Response)
  (slack_conversations_open : trace -> value -> res (gmap string value))
  (slack_chat_postMessage : trace -> Message -> res unit)
  (str_exn : exn -> string)
  (question context user_id : value) (tr tr1 : trace) (e e' : exn) :
  let logged := (tr1 ++ [LogException "Cortex call failed: %s" e])%list in
  modal_try_suite cfg http_post slack_conversations_open
    slack_chat_postMessage question context user_id tr
  = (tr1, inl e) ->
  slack_conversations_open logged user_id = inl e' ->
  try_except
    (modal_try_suite cfg http_post slack_conversations_open
       slack_chat_postMessage question context user_id)
    (modal_except_suite slack_conversations_open slack_chat_postMessage
       str_exn user_id) tr
  = ((logged ++ [ConversationsOpen user_id])%list, inr tt).
Proof.
  intros logged Hraise Hopen. subst logged.
  unfold try_except at 1. rewrite Hraise.
  unfold modal_except_suite, bind, emit, try_except.
  unfold open_dm, bind, conversations_open, lift.
  rewrite Hopen. reflexivity.
Qed.

Lemma unreportable_failure_is_swallowed_witness :
  posted_messages
    (try_except
       (modal_try_suite Example.cfg Scenario.timing_out
          Scenario.slack_open_fails Example.slack_post
          (VStr "Q") VNone (VStr "U1"))
       (modal_except_suite Scenario.slack_open_fails Example.slack_post
          Example.str_exn (VStr "U1")) []).1
  = [].
Proof.
  rewrite (unreportable_failure_is_swallowed Example.cfg Scenario.timing_out
             Scenario.slack_open_fails Example.slack_post Example.str_exn
             (VStr "Q") VNone (VStr "U1") []
             (call_cortex_agent Example.cfg Scenario.timing_out
                (VStr "Q") (Some VNone) (Some (VStr "U1")) None []).1
             (Timeout "Read timed out.")
             (SlackApiError "user_not_found") eq_refl eq_refl).
  reflexivity.
Defined.

(** X14: a JSON result that is not an object (a list, a string, a number,
    [null]) makes the [try:] suite raise an attribute error right after the
    relay call, before any Slack call. *)
Theorem non_object_result_raises
  (cfg : Config) (http_post : trace -> Request -> res Response)
  (slack_conversations_open : trace -> value -> res (gmap string value))
  (slack_chat_postMessage : trace -> Message -> res unit)
  (question context user_id : value) (tr tr1 : trace) (result : value) :
  call_cortex_agent cfg http_post question
    (Some context) (Some user_id) None tr
  = (tr1, inr result) ->
  (forall d, result <> VDict d) ->
  modal_try_suite cfg http_post slack_conversations_open
    slack_chat_postMessage question context user_id tr
  = (tr1, inl (AttributeError result "get")).
Proof.
  intros Hrelay Hnot. unfold modal_try_suite, bind. rewrite Hrelay.
  unfold lift, display_text, py_or, py_get.
  destruct result; try reflexivity.
  exfalso. eapply Hnot. reflexivity.
Qed.

Lemma non_object_result_raises_witness :
  modal_try_suite Example.cfg (Example.respond Scenario.resp_list)
    Example.slack_open Example.slack_post (VStr "Q") VNone (VStr "U1") []
  = ((call_cortex_agent Example.cfg (Example.respond Scenario.resp_list)
        (VStr "Q") (Some VNone) (Some (VStr "U1")) None []).1,
     inl (AttributeError (VList [VStr "A"]) "get")).
Proof.
  apply (non_object_result_raises Example.cfg
           (Example.respond Scenario.resp_list)
           Example.slack_open Example.slack_post
           (VStr "Q") VNone (VStr "U1") [] _ (VList [VStr "A"]) eq_refl).
  intros d H. discriminate H.
Defined.

(** ** The modal and its submission *)


(** ** The listeners that open or publish a view *)

(** X16: [update_home_tab] never raises, for any event and any client.  If
    the event names a user, the home view is published once, to that user,
    and a failure of the publication is only logged; if it does not,
    nothing is published and the lookup failure is logged. *)
Theorem update_home_tab_never_raises
  (slack_views_publish : ui_trace -> value -> value -> res unit)
  (event : value) (tr : ui_trace) :
  exists rest,
    update_home_tab slack_views_publish event tr = ((tr ++ rest)%list, inr tt)
    /\ match py_getitem event "user" with
       | inr user =>
           match slack_views_publish tr user build_home_view with
           | inr _ => rest = [ViewsPublish user build_home_view]
           | inl e =>
               rest = [ViewsPublish user build_home_view;
                       UiLogException "Failed to publish home: %s" e]
           end
       | inl e => rest = [UiLogException "Failed to publish home: %s" e]
       end.
Proof.
  unfold update_home_tab, ui_try_except, ui_bind, ui_lift, views_publish,
    log_exception, ui_emit.
  destruct (py_getitem event "user") as [e|user].
  - eexists. split; reflexivity.
  - destruct (slack_views_publish tr user build_home_view) as [e|[]].
    + rewrite <- app_assoc. eexists. split; reflexivity.
    + eexists. split; reflexivity.
Qed.

(** X17: for a [/cortex] command whose text is the string [s], or whose
    text is missing or falsy (then [s] is empty), the handler acknowledges
    first, then opens once, with the command's trigger id, the modal whose
    initial query is [s] stripped; it returns normally even if the opening
    fails, which is only logged. *)
Theorem command_opens_prefilled_modal
  (slack_views_open : ui_trace -> value -> value -> res unit)
  (str_strip : string -> string)
  (b : gmap string value) (s : string) (tr : ui_trace) :
  b !! "text" = Some (VStr s) \/ (absent_or_falsy b "text" /\ s = "") ->
  let trigger_id := default VNone (b !! "trigger_id") in
  let modal := build_cortex_modal (Some (VStr (str_strip s))) in
  let opened := (tr ++ [UiAck; ViewsOpen trigger_id modal])%list in
  handle_cortex_command slack_views_open str_strip (VDict b) tr
  = match slack_views_open (tr ++ [UiAck])%list trigger_id modal with
    | inr _ => (opened, inr tt)
    | inl e =>
        ((opened ++ [UiLogException "Failed to open Cortex modal: %s" e])%list,
         inr tt)
    end.
Proof.
  intros Htext trigger_id modal opened. subst trigger_id modal opened.
  unfold handle_cortex_command, ui_bind, ui_emit, ui_lift.
  assert (Hor : py_or (py_get (VDict b) "text" VNone) (inr (VStr ""))
                = inr (VStr s)).
  { unfold py_or, py_get. destruct Htext as [Hs | [Hfalsy ->]].
    - rewrite Hs. cbn [default from_option]. unfold id, truthy.
      destruct (String.eqb s "") eqn:E; [|reflexivity].
      apply String.eqb_eq in E. subst s. reflexivity.
    - rewrite (absent_or_falsy_default _ _ Hfalsy). reflexivity. }
  rewrite Hor. cbn [py_get py_strip].
  unfold ui_try_except, views_open, log_exception, ui_emit.
  destruct (slack_views_open _ _ _) as [e|[]];
    rewrite <- ?app_assoc; reflexivity.
Qed.

Lemma command_opens_prefilled_modal_witness :
  handle_cortex_command Scenario.views_expired Example.strip
    (Scenario.command_body (VStr "  sales by region ")) []
  = ([UiAck;
      ViewsOpen (VStr "T1")
        (build_cortex_modal (Some (VStr "sales by region")));
      UiLogException "Failed to open Cortex modal: %s"
        (SlackApiError "expired_trigger_id")],
     inr tt).
Proof.
  exact (command_opens_prefilled_modal Scenario.views_expired Example.strip
           {[ "command" := VStr "/cortex";
              "text" := VStr "  sales by region ";
              "trigger_id" := VStr "T1" ]}
           "  sales by region " [] (or_introl eq_refl)).
Defined.

(** X18: for a message shortcut the modal's initial query is the text of
    the selected message as it is (not stripped), and the empty string when
    the body has no message or the message has no text. *)
Theorem shortcut_opens_modal_with_message_text
  (slack_views_open : ui_trace -> value -> value -> res unit)
  (b : gmap string value) (text : value) (tr : ui_trace) :
  (exists m, b !! "message" = Some (VDict m)
             /\ text = default (VStr "") (m !! "text"))
  \/ (b !! "message" = None /\ text = VStr "") ->
  let trigger_id := default VNone (b !! "trigger_id") in
  let modal := build_cortex_modal (Some text) in
  let opened := (tr ++ [UiAck; ViewsOpen trigger_id modal])%list in
  handle_message_shortcut slack_views_open (VDict b) tr
  = match slack_views_open (tr ++ [UiAck])%list trigger_id modal with
    | inr _ => (opened, inr tt)
    | inl e =>
        ((opened
          ++ [UiLogException "Failed to open modal from shortcut: %s" e])%list,
         inr tt)
    end.
Proof.
  intros Hmessage trigger_id modal opened. subst trigger_id modal opened.
  unfold handle_message_shortcut, ui_bind, ui_emit, ui_lift.
  cbn [py_get].
  assert (Htext : py_get (default (VDict ∅) (b !! "message")) "text" (VStr "")
                  = inr text).
  { destruct Hmessage as [(m & -> & ->) | [-> ->]]; reflexivity. }
  rewrite Htext.
  unfold ui_try_except, views_open, log_exception, ui_emit.
  destruct (slack_views_open _ _ _) as [e|[]];
    rewrite <- ?app_assoc; reflexivity.
Qed.

Lemma shortcut_opens_modal_with_message_text_witness :
  handle_message_shortcut Scenario.views_ok
    (Scenario.shortcut_body (VStr " revenue? ")) []
  = ([UiAck;
      ViewsOpen (VStr "T1") (build_cortex_modal (Some (VStr " revenue? ")))],
     inr tt).
Proof.
  exact (shortcut_opens_modal_with_message_text Scenario.views_ok
           {[ "type" := VStr "message_action";
              "message" := VDict {[ "text" := VStr " revenue? " ]};
              "trigger_id" := VStr "T1" ]}
           (VStr " revenue? ") []
           (or_introl
              (ex_intro _ {[ "text" := VStr " revenue? " ]}
                 (conj eq_refl eq_refl)))).
Defined.

(** X19: the two button handlers do the same thing: each acknowledges,
    then opens once the modal with the default (empty) initial query, and
    returns normally; they differ only in the text logged when the opening
    fails. *)
Theorem button_handlers_open_empty_modal
  (slack_views_open : ui_trace -> value -> value -> res unit)
  (b : gmap string value) (tr : ui_trace) :
  let trigger_id := default VNone (b !! "trigger_id") in
  let modal := build_cortex_modal None in
  let opened := (tr ++ [UiAck; ViewsOpen trigger_id modal])%list in
  modal = build_cortex_modal (Some (VStr ""))
  /\ match slack_views_open (tr ++ [UiAck])%list trigger_id modal with
     | inr _ =>
         open_cortex_modal_from_message slack_views_open (VDict b) tr
         = (opened, inr tt)
         /\ open_cortex_modal_from_home slack_views_open (VDict b) tr
            = (opened, inr tt)
     | inl e =>
         open_cortex_modal_from_message slack_views_open (VDict b) tr
         = ((opened
             ++ [UiLogException
                   "Failed to open Cortex modal from message action: %s" e])%list,
            inr tt)
         /\ open_cortex_modal_from_home slack_views_open (VDict b) tr
            = ((opened
                ++ [UiLogException
                      "Failed to open Cortex modal from home action: %s" e])%list,
               inr tt)
     end.
Proof.
  intros trigger_id modal opened. subst trigger_id modal opened.
  split; [reflexivity|].
  unfold open_cortex_modal_from_message, open_cortex_modal_from_home,
    ui_bind, ui_emit, ui_lift, ui_try_except, views_open, log_exception,
    ui_emit.
  cbn [py_get].
  destruct (slack_views_open _ _ _) as [e|[]];
    rewrite <- ?app_assoc; split; reflexivity.
Qed.

Lemma str_append_assoc (s1 s2 s3 : string) :
  (s1 ++ s2) ++ s3 = s1 ++ (s2 ++ s3).
Proof.
  induction s1 as [|c s1 IH]; [reflexivity|].
  change (String c ((s1 ++ s2) ++ s3) = String c (s1 ++ (s2 ++ s3))).
  rewrite IH. reflexivity.
Qed.

(** X20: [message_hello] on a message without a user raises the key error
    and says nothing; on a message from the user [u] it says once, with
    the greeting that mentions [u] as fallback text and the block whose
    text is that greeting followed by the hint; what [say] raises is not
    caught. *)
Theorem hello_greets_the_sender
  (slack_say : ui_trace -> value -> value -> res unit)
  (str_other : value -> string) (m : gmap string value) (tr : ui_trace) :
  (m !! "user" = None ->
   message_hello slack_say str_other (VDict m) tr = (tr, inl (KeyError "user")))
  /\ (forall u, m !! "user" = Some (VStr u) ->
        let greeting := "Hey there <@" ++ u ++ ">!" in
        message_hello slack_say str_other (VDict m) tr
        = ((tr ++ [Say (hello_blocks u) (VStr greeting)])%list,
           slack_say tr (hello_blocks u) (VStr greeting))
        /\ exists block text,
             hello_blocks u = VList [VDict block]
             /\ block !! "text" = Some (VDict text)
             /\ text !! "text" = Some (VStr (greeting ++ " Ask me with /cortex"))).
Proof.
  split.
  - intros Hnone. unfold message_hello, ui_bind, ui_lift. cbn [py_getitem].
    rewrite Hnone. reflexivity.
  - intros u Hu greeting. subst greeting. split.
    + unfold message_hello, ui_bind, ui_lift. cbn [py_getitem].
      rewrite Hu. reflexivity.
    + eexists. eexists. split; [reflexivity|]. split; [reflexivity|].
      rewrite (str_append_assoc "Hey there <@" (u ++ ">!")),
              (str_append_assoc u ">!").
      reflexivity.
Qed.

Lemma hello_greets_the_sender_witness :
  message_hello Scenario.say_ok Scenario.str_other
    (VDict {[ "text" := VStr "hello" ]}) []
  = ([], inl (KeyError "user"))
  /\ message_hello Scenario.say_ok Scenario.str_other
       (VDict {[ "user" := VStr "U1"; "text" := VStr "hello" ]}) []
     = ([Say (hello_blocks "U1") (VStr "Hey there <@U1>!")], inr tt).
Proof.
  split.
  - destruct (hello_greets_the_sender Scenario.say_ok Scenario.str_other
                {[ "text" := VStr "hello" ]} []) as [Hnone _].
    apply Hnone. reflexivity.
  - destruct (hello_greets_the_sender Scenario.say_ok Scenario.str_other
                {[ "user" := VStr "U1"; "text" := VStr "hello" ]} [])
      as [_ Hsome].
    destruct (Hsome "U1" eq_refl) as [Hrun _]. exact Hrun.
Defined.

(** X21: every id the app's views can send back has a listener: the button
    of the home view and the button of the greeting fire the two registered
    actions, and the modal, whatever its initial query, is submitted under
    the callback id of the registered view listener. *)
Theorem interactive_ids_have_listeners
  (initial_query : option value) (user : string) :
  blocks_action_ids (view_blocks build_home_view)
  = ["open_cortex_modal_from_home"]
  /\ blocks_action_ids (hello_blocks user)
     = ["open_cortex_modal_from_message"]
  /\ view_callback_id (build_cortex_modal initial_query)
     = Some "cortex_modal_submit"
  /\ (forall a,
        In a (blocks_action_ids (view_blocks build_home_view)
              ++ blocks_action_ids (hello_blocks user))%list ->
        In (OnAction a) listeners)
  /\ (forall c,
        view_callback_id (build_cortex_modal initial_query) = Some c ->
        In (OnView c) listeners).
Proof.
  split; [reflexivity|]. split; [reflexivity|]. split; [reflexivity|].
  split.
  - intros a [<- | [<- | []]]; unfold listeners; cbn [In]; tauto.
  - intros c Hc. injection Hc as <-. unfold listeners; cbn [In]; tauto.
Qed.

(** ** The Snowflake context *)

Section SnowflakeFacts.

Variable environ : gmap string string.

(** Keys that are not lowered to [k] leave the entry at [k] alone. *)
Lemma snowflake_fold_other (keys : list string)
  (context : gmap string value) (k : string) :
  (forall key, In key keys -> str_lower key <> k) ->
  fold_left (snowflake_step environ) keys context !! k = context !! k.
Proof.
  revert context. induction keys as [|key keys IH]; intros context Hother;
    [reflexivity|].
  cbn [fold_left]. rewrite IH by (intros key' Hin; apply Hother; right; exact Hin).
  assert (Hne : str_lower key <> k) by (apply Hother; left; reflexivity).
  unfold snowflake_step.
  destruct (environ !! key) as [val|]; [|reflexivity].
  destruct (negb (String.eqb val "")); [|reflexivity].
  apply lookup_insert_ne. exact Hne.
Qed.

(** A key whose lowered form occurs once decides the entry at that form. *)
Lemma snowflake_fold_key (keys : list string)
  (context : gmap string value) (key : string) :
  In key keys ->
  NoDup (map str_lower keys) ->
  fold_left (snowflake_step environ) keys context !! str_lower key
  = match environ !! key with
    | Some val =>
        if negb (String.eqb val "")
        then Some (VStr val)
        else context !! str_lower key
    | None => context !! str_lower key
    end.
Proof.
  revert context. induction keys as [|key0 keys IH]; intros context Hin Hnodup;
    [destruct Hin|].
  cbn [map] in Hnodup. apply NoDup_cons in Hnodup as [Hfresh Hnodup].
  cbn [fold_left]. destruct Hin as [-> | Hin].
  - rewrite snowflake_fold_other.
    + unfold snowflake_step. destruct (environ !! key) as [val|]; [|reflexivity].
      destruct (negb (String.eqb val "")); [|reflexivity].
      apply lookup_insert_eq.
    + intros key' Hin' Heq. apply Hfresh. rewrite <- Heq.
      apply list_elem_of_In, in_map, Hin'.
  - rewrite IH by assumption.
    assert (Hne : str_lower key0 <> str_lower key).
    { intros Heq. apply Hfresh. rewrite Heq.
      apply list_elem_of_In, in_map, Hin. }
    assert (Hsame : snowflake_step environ context key0 !! str_lower key
                    = context !! str_lower key).
    { unfold snowflake_step.
      destruct (environ !! key0) as [val0|]; [|reflexivity].
      destruct (negb (String.eqb val0 "")); [|reflexivity].
      apply lookup_insert_ne. exact Hne. }
    rewrite Hsame. reflexivity.
Qed.

End SnowflakeFacts.

Lemma snowflake_keys_lower_nodup : NoDup (map str_lower snowflake_keys).
Proof.
  apply NoDup_ListNoDup. vm_compute.
  repeat (constructor; [cbn [In]; intros H; repeat destruct H as [H|H];
                        try discriminate H; exact H|]).
  constructor.
Qed.

(** X22: the Snowflake context holds exactly the settings that are set and
    non-empty among the five keys of the loop, each under its lowered name
    and with its value unchanged. *)
Theorem snowflake_context_entries
  (environ : gmap string string) (k : string) (v : value) :
  build_snowflake_context environ !! k = Some v
  <-> exists key val,
        In key snowflake_keys
        /\ k = str_lower key
        /\ environ !! key = Some val
        /\ val <> ""
        /\ v = VStr val.
Proof.
  unfold build_snowflake_context. split.
  - intros Hlookup.
    destruct (in_dec string_dec k (map str_lower snowflake_keys)) as [Hin|Hout].
    + apply in_map_iff in Hin. destruct Hin as (key & <- & Hin).
      rewrite (snowflake_fold_key environ _ _ _ Hin snowflake_keys_lower_nodup)
        in Hlookup.
      rewrite lookup_empty in Hlookup.
      destruct (environ !! key) as [val|] eqn:Henv; [|discriminate Hlookup].
      destruct (String.eqb val "") eqn:Hval; cbn [negb] in Hlookup;
        [discriminate Hlookup|].
      injection Hlookup as <-. exists key, val.
      apply String.eqb_neq in Hval. repeat split; assumption.
    + rewrite snowflake_fold_other in Hlookup.
      * rewrite lookup_empty in Hlookup. discriminate Hlookup.
      * intros key Hin Heq. apply Hout. rewrite <- Heq. apply in_map, Hin.
  - intros (key & val & Hin & -> & Henv & Hval & ->).
    rewrite (snowflake_fold_key environ _ _ _ Hin snowflake_keys_lower_nodup).
    rewrite Henv. apply String.eqb_neq in Hval. rewrite Hval. reflexivity.
Qed.

Lemma snowflake_context_entries_witness :
  build_snowflake_context Scenario.environ !! "snowflake_user"
  = Some (VStr "bob")
  /\ build_snowflake_context Scenario.environ !! "snowflake_warehouse" = None.
Proof.
  split.
  - apply (snowflake_context_entries Scenario.environ
             "snowflake_user" (VStr "bob")).
    exists "SNOWFLAKE_USER", "bob".
    repeat split; [cbn; tauto | discriminate].
  - destruct (build_snowflake_context Scenario.environ
              !! "snowflake_warehouse") as [v|] eqn:E; [|reflexivity].
    apply (snowflake_context_entries Scenario.environ
             "snowflake_warehouse" v) in E.
    destruct E as (key & val & Hin & Hk & Henv & Hval & _).
    cbn [In snowflake_keys] in Hin.
    destruct Hin as [<- | [<- | [<- | [<- | [<- | []]]]]];
      try discriminate Hk.
    vm_compute in Henv. injection Henv as <-. contradiction.
Defined.

(** X23: the password never takes part: the context has no entry for it,
    and setting or changing SNOWFLAKE_PASSWORD in the environment does not
    change the context. *)
Theorem snowflake_password_is_left_out
  (environ : gmap string string) (password : string) :
  build_snowflake_context environ !! "snowflake_password" = None
  /\ build_snowflake_context (<["SNOWFLAKE_PASSWORD" := password]> environ)
     = build_snowflake_context environ.
Proof.
  split.
  - unfold build_snowflake_context. rewrite snowflake_fold_other.
    + apply lookup_empty.
    + intros key Hin. cbn [In snowflake_keys] in Hin.
      destruct Hin as [<- | [<- | [<- | [<- | [<- | []]]]]]; discriminate.
  - unfold build_snowflake_context, snowflake_keys. cbn [fold_left].
    unfold snowflake_step. rewrite !lookup_insert_ne by discriminate.
    reflexivity.
Qed.

(** ** A submission without configuration *)

(** X24: when a setting is missing or empty, a submission reaches no
    network: the [try:] suite raises the configuration error at once, and
    if the DM channel opens the user is sent the apology quoting it; the
    trace holds the log record and the two Slack calls only. *)
Theorem unconfigured_submission_apologises
  (cfg : Config) (http_post : trace -> Request -> res Response)
  (slack_conversations_open : trace -> value -> res (gmap string value))
  (slack_chat_postMessage : trace -> Message -> res unit)
  (str_exn : exn -> string)
  (question context user_id : value) (tr : trace)
  (dm : gmap string value) (dm_channel : value) :
  let e := ValueError config_error_message in
  let logged := (tr ++ [LogException "Cortex call failed: %s" e])%list in
  configured cfg = false ->
  slack_conversations_open logged user_id = inr dm ->
  py_getitem (default VNone (dm !! "channel")) "id" = inr dm_channel ->
  try_except
    (modal_try_suite cfg http_post slack_conversations_open
       slack_chat_postMessage question context user_id)
    (modal_except_suite slack_conversations_open slack_chat_postMessage
       str_exn user_id) tr
  = ((logged
      ++ [ConversationsOpen user_id;
          ChatPostMessage
            (mkMessage dm_channel None
               (VStr ("Sorry, I couldn't complete that request: "
                      ++ str_exn e)))])%list,
     inr tt).
Proof.
  intros e logged Hcfg Hopen Hchannel. subst e logged.
  unfold try_except at 1, modal_try_suite, bind at 1.
  rewrite call_cortex_agent_guard by exact Hcfg.
  unfold modal_except_suite, bind, emit, try_except.
  unfold open_dm, bind, conversations_open, lift.
  rewrite Hopen, Hchannel. unfold chat_postMessage, ret.
  rewrite <- !app_assoc.
  destruct (slack_chat_postMessage _ _) as [e'|[]]; reflexivity.
Qed.

Lemma unconfigured_submission_apologises_witness :
  try_except
    (modal_try_suite Example.cfg_no_key Example.unreachable
       Example.slack_open Example.slack_post (VStr "Q") VNone (VStr "U1"))
    (modal_except_suite Example.slack_open Example.slack_post
       Example.str_exn (VStr "U1")) []
  = ([LogException "Cortex call failed: %s" (ValueError config_error_message);
      ConversationsOpen (VStr "U1");
      ChatPostMessage
        (mkMessage (VStr "D1") None
           (VStr ("Sorry, I couldn't complete that request: "
                  ++ config_error_message)))],
     inr tt).
Proof.
  exact (unconfigured_submission_apologises Example.cfg_no_key
           Example.unreachable Example.slack_open Example.slack_post
           Example.str_exn (VStr "Q") VNone (VStr "U1") []
           {[ "channel" := VDict {[ "id" := VStr "D1" ]} ]} (VStr "D1")
           eq_refl eq_refl eq_refl).
Defined.
